(** * go-zaya: the request/response contract layer of client.go

    A shallow embedding of [client.go] (package [gozaya]) and of the parts of
    the Go standard library, [pkg/errors], [resty] (v2.16.5) and
    [opentracing-go] (v1.2.0) that it calls, followed by the properties of
    the client that the specification states.

    Conventions.
    - A Go [string] is a sequence of bytes: Rocq's [string].
    - A Go [int] is a [Z]; client.go performs no arithmetic on its [int]s, it
      only compares them with [0] and prints them.
    - A Go map is a [gmap]; [http.Header] and [url.Values] map a key to a
      list of values.
    - A nilable value ([error], [*resty.Response], a byte slice) is an
      [option]; [None] is [nil].
    - [*resty.Client] is a location in a store of client states, because the
      client handle is shared with whoever supplied it. *)

From Stdlib Require Import ZArith Strings.String Strings.Ascii.
From Stdlib Require Import Numbers.DecimalString Numbers.DecimalZ Numbers.DecimalPos.
From stdpp Require Import gmap strings list fin_maps.

Open Scope Z_scope.
Open Scope string_scope.

(** ** Go standard library *)

Module Go_strings.

(** Membership of a byte in a cutset of ASCII bytes. *)
Fixpoint IndexByte (s : string) (c : ascii) : bool :=
  match s with
  | EmptyString => false
  | String a s' => if Ascii.eqb a c then true else IndexByte s' c
  end.

(** The loop of [trimRightByte] / [trimRightASCII]:
    [for len(s) > 0 && member(s[len(s)-1]) { s = s[:len(s)-1] }],
    run on the bytes of [s] read from its end. *)
Fixpoint trimRight_loop (cutset : string) (rs : list ascii) : list ascii :=
  match rs with
  | [] => []
  | a :: rs' => if IndexByte cutset a then trimRight_loop cutset rs' else rs
  end.

(** [strings.TrimRight(s, cutset)] for a cutset of ASCII bytes (the only
    cutset client.go passes is [urlSeparator]). *)
Definition TrimRight (s cutset : string) : string :=
  string_of_list_ascii
    (rev (trimRight_loop cutset (rev (list_ascii_of_string s)))).

(** [strings.Join(elems, sep)]. *)
Definition Join (elems : list string) (sep : string) : string :=
  String.concat sep elems.

(** [strings.Repeat(s, count)]. *)
Fixpoint Repeat (s : string) (count : nat) : string :=
  match count with
  | O => ""
  | S n => s +:+ Repeat s n
  end.

(** [strings.HasPrefix(s, prefix)]. *)
Definition HasPrefix (s prefix : string) : bool := String.prefix prefix s.

(** [strings.HasSuffix(s, suffix)]. *)
Definition HasSuffix (s suffix : string) : bool :=
  let n := String.length s in
  let m := String.length suffix in
  (m <=? n)%nat && String.eqb (String.substring (n - m) m s) suffix.

(** [unicode.IsSpace] on the ASCII range: the table [asciiSpace]. *)
Definition asciiSpace (a : ascii) : bool :=
  let n := N_of_ascii a in
  ((9 <=? n) && (n <=? 13) || (n =? 32))%N.

(** The bytes that follow a lead byte [a] in the UTF-8 encoding of a white
    space rune outside ASCII: U+0085, U+00A0 (two bytes), U+1680,
    U+2000..U+200A, U+2028, U+2029, U+202F, U+205F, U+3000 (three bytes). *)
Definition space2 (a b : ascii) : bool :=
  let '(x, y) := (N_of_ascii a, N_of_ascii b) in
  ((x =? 194) && ((y =? 133) || (y =? 160)))%N.

Definition space3 (a b c : ascii) : bool :=
  let '(x, y, z) := (N_of_ascii a, N_of_ascii b, N_of_ascii c) in
  ((x =? 225) && (y =? 154) && (z =? 128)
   || (x =? 226) && (y =? 128)
        && ((128 <=? z) && (z <=? 138) || (z =? 168) || (z =? 169) || (z =? 175))
   || (x =? 226) && (y =? 129) && (z =? 159)
   || (x =? 227) && (y =? 128) && (z =? 128))%N.

(** [strings.TrimLeftFunc(s, unicode.IsSpace)]: drop the leading white
    space runes of [s], decoding UTF-8 from the left. *)
Fixpoint TrimLeftSpace (s : string) : string :=
  match s with
  | EmptyString => EmptyString
  | String a r1 =>
      if asciiSpace a then TrimLeftSpace r1
      else match r1 with
           | EmptyString => s
           | String b r2 =>
               if space2 a b then TrimLeftSpace r2
               else match r2 with
                    | EmptyString => s
                    | String c r3 =>
                        if space3 a b c then TrimLeftSpace r3 else s
                    end
           end
  end.

End Go_strings.

Module strconv.

(** [strconv.Itoa(i)]: the decimal rendering of [i], with a leading [-]
    for a negative number and no leading zeros. *)
Definition Itoa (i : Z) : string := NilEmpty.string_of_int (Z.to_int i).

End strconv.

Module fmt.

(** [fmt.Sprintf("%s: %s", a, b)] on two operands already rendered by
    their [%s] verb. *)
Definition Sprintf_s_colon_s (a b : string) : string := a +:+ ": " +:+ b.

End fmt.

Module time.

(** [time.Duration] counts nanoseconds. *)
Definition Duration := Z.
Definition Nanosecond : Duration := 1.
Definition Microsecond : Duration := 1000 * Nanosecond.
Definition Millisecond : Duration := 1000 * Microsecond.
Definition Second : Duration := 1000 * Millisecond.

End time.

(** ** Declarations that client.go uses and does not contain

    Go's [error] interface, and the types of the package that are declared in
    its other files: [APIErrType] with [ParseAPIErrType], [HTTPErrorResponse]
    with its emptiness predicate and its rendering under [%s], and
    [ResponseModel].  [opentracing.Span] and [opentracing.SpanContext] are
    interfaces of which client.go only calls [Span.Context]. *)
Class Declarations := {
  error : Type;
  error_Error : error → string;
  APIErrType : Type;
  ParseAPIErrType : option error → APIErrType;
  HTTPErrorResponse : Type;
  HTTPErrorResponse_zero : HTTPErrorResponse;
  HTTPErrorResponse_NotEmpty : HTTPErrorResponse → bool;
  HTTPErrorResponse_String : HTTPErrorResponse → string;
  ResponseModel : Type;
  ResponseModel_zero : ResponseModel;
  Span : Type;
  SpanContext : Type;
  Span_Context : Span → SpanContext
}.

(** [http.Header] and [url.Values]: a key maps to its list of values. *)
Abbreviation http_Header := (gmap string (list string)).
Abbreviation url_Values := (gmap string (list string)).

(** [Header.Set(key, value)] and [Values.Set(key, value)]: the key gets the
    single value.  Every key client.go passes is in canonical form. *)
Definition Header_Set (h : http_Header) (key value : string) : http_Header :=
  <[key := [value]]> h.

(** ** github.com/pkg/errors *)
Module errors.
Section errors.
Context `{Declarations}.

Record withMessage := { cause : error; msg : string }.
Record withStack := { inner : withMessage }.

(** [errors.Wrap(err, message)] for a non-nil [err]: the message and the
    call stack around the cause. *)
Definition Wrap (err : error) (message : string) : withStack :=
  {| inner := {| cause := err; msg := message |} |}.

Definition withMessage_Error (w : withMessage) : string :=
  msg w +:+ ": " +:+ error_Error (cause w).

Definition withStack_Error (w : withStack) : string :=
  withMessage_Error (inner w).
End errors.
End errors.

(** ** github.com/opentracing/opentracing-go *)
Module opentracing.
Section opentracing.
Context `{Declarations}.

Inductive BuiltinFormat := Binary | TextMap | HTTPHeaders.

(** The [Tracer] interface, as far as client.go calls it.  [Inject] writes
    into the carrier it is given and reports an error or [nil]: it returns
    the carrier as it leaves it together with the error. *)
Record Tracer := {
  Inject : SpanContext → BuiltinFormat → http_Header → http_Header * option error
}.
End opentracing.
End opentracing.

(** ** context *)
Module context.
Section context.
Context `{Declarations}.

(** What [ctx.Value(tracerContextKey)] holds: nothing, a tracer, or a value
    of a type that is not a tracer. *)
Inductive tracerValue :=
| NoValue
| TracerValue (t : opentracing.Tracer)
| OtherValue.

(** A [context.Context], seen through the two lookups client.go makes. *)
Record Context := {
  SpanFromContext : option Span;
  Value_tracerContextKey : tracerValue
}.
End context.
End context.

(** ** github.com/go-resty/resty/v2 *)
Module resty.

(** A location of a [resty.Client]. *)
Definition ClientPtr := positive.

(** The settings of a [resty.Client] that this development reads. *)
Module Client.
Record t := {
  Timeout : time.Duration;
  Token : string;
  AuthScheme : string;
  HeaderAuthorizationKey : string
}.
End Client.

(** [resty.New()]: no timeout, no credentials. *)
Definition New : Client.t :=
  {| Client.Timeout := 0;
     Client.Token := "";
     Client.AuthScheme := "";
     Client.HeaderAuthorizationKey := "Authorization" |}.

(** [Client.SetTimeout]. *)
Definition SetTimeout (c : Client.t) (timeout : time.Duration) : Client.t :=
  {| Client.Timeout := timeout;
     Client.Token := Client.Token c;
     Client.AuthScheme := Client.AuthScheme c;
     Client.HeaderAuthorizationKey := Client.HeaderAuthorizationKey c |}.

(** [IsStringEmpty(str)] is [len(strings.TrimSpace(str)) == 0].  Trimming
    white space from both ends leaves nothing exactly when trimming it from
    the left already does. *)
Definition IsStringEmpty (str : string) : bool :=
  String.eqb (Go_strings.TrimLeftSpace str) "".

Section resty.
Context `{Declarations}.

(** An [interface{}] that holds a decoding target. *)
Inductive any :=
| nil
| ptr_HTTPErrorResponse (e : HTTPErrorResponse)
| ptr_ResponseModel (m : ResponseModel)
| ptr_other.

Record Request := {
  client : ClientPtr;
  ctx : option context.Context;
  Error : any;
  Result : any;
  Token : string;
  AuthScheme : string;
  Header : http_Header;
  FormData : url_Values;
  Method : string;
  URL : string
}.

(** [Client.R()]: a fresh request of the client. *)
Definition R (c : ClientPtr) : Request :=
  {| client := c; ctx := None; Error := nil; Result := nil;
     Token := ""; AuthScheme := ""; Header := ∅; FormData := ∅;
     Method := ""; URL := "" |}.

Definition SetContext (r : Request) (c : context.Context) : Request :=
  {| client := client r; ctx := Some c; Error := Error r; Result := Result r;
     Token := Token r; AuthScheme := AuthScheme r; Header := Header r;
     FormData := FormData r; Method := Method r; URL := URL r |}.

(** [SetError(&err)], for the [err] of [GetRequest]: the registered error
    object points to a zero [HTTPErrorResponse]. *)
Definition SetError_HTTPErrorResponse (r : Request) : Request :=
  {| client := client r; ctx := ctx r;
     Error := ptr_HTTPErrorResponse HTTPErrorResponse_zero;
     Result := Result r;
     Token := Token r; AuthScheme := AuthScheme r; Header := Header r;
     FormData := FormData r; Method := Method r; URL := URL r |}.

Definition SetAuthToken (r : Request) (token : string) : Request :=
  {| client := client r; ctx := ctx r; Error := Error r; Result := Result r;
     Token := token; AuthScheme := AuthScheme r; Header := Header r;
     FormData := FormData r; Method := Method r; URL := URL r |}.

Definition with_Header (r : Request) (h : http_Header) : Request :=
  {| client := client r; ctx := ctx r; Error := Error r; Result := Result r;
     Token := Token r; AuthScheme := AuthScheme r; Header := h;
     FormData := FormData r; Method := Method r; URL := URL r |}.

Definition SetHeader (r : Request) (header value : string) : Request :=
  with_Header r (Header_Set (Header r) header value).

(** [SetFormData(data)]: [r.FormData.Set(k, v)] for every entry of [data]. *)
Definition SetFormData (r : Request) (data : gmap string string) : Request :=
  {| client := client r; ctx := ctx r; Error := Error r; Result := Result r;
     Token := Token r; AuthScheme := AuthScheme r; Header := Header r;
     FormData := ((λ v, [v]) <$> data) ∪ FormData r;
     Method := Method r; URL := URL r |}.

(** [Execute(method, url)] stores the method and the URL in the request
    before the client sends it. *)
Definition prepare (r : Request) (method url : string) : Request :=
  {| client := client r; ctx := ctx r; Error := Error r; Result := Result r;
     Token := Token r; AuthScheme := AuthScheme r; Header := Header r;
     FormData := FormData r; Method := method; URL := url |}.

(** The middleware [addCredentials], for a request and a client without
    basic-auth user info: the header it leaves in the outgoing
    [http.Request], whose header is [raw] so far.  The token of the request
    takes precedence over the token of the client, and a blank token sets no
    header.  The authorization key of a client is in canonical form. *)
Definition addCredentials (c : Client.t) (r : Request) (raw : http_Header) : http_Header :=
  let authScheme :=
    if negb (IsStringEmpty (AuthScheme r)) then AuthScheme r
    else if negb (IsStringEmpty (Client.AuthScheme c)) then Client.AuthScheme c
    else "Bearer" in
  if negb (IsStringEmpty (Token r)) then
    Header_Set raw (Client.HeaderAuthorizationKey c) (authScheme +:+ " " +:+ Token r)
  else if negb (IsStringEmpty (Client.Token c)) then
    Header_Set raw (Client.HeaderAuthorizationKey c) (authScheme +:+ " " +:+ Client.Token c)
  else raw.

(** A [resty.Response], seen through the accessors client.go calls:
    [StatusCode()], [Status()], [Body()] ([None] is a nil slice) and
    [Error()]. *)
Record Response := {
  StatusCode : Z;
  Status : string;
  Body : option string;
  Response_Error : any
}.

(** [Execute(method, url)] hands the prepared request to the client, which
    answers with a response, an error, or both; [send] is that round trip.
    [Get] and [Post] fix the method. *)
Definition Execute (send : Request → option Response * option error)
  (r : Request) (method url : string) : option Response * option error :=
  send (prepare r method url).

Definition MethodGet : string := "GET".
Definition MethodPost : string := "POST".

Definition Get send (r : Request) (url : string) := Execute send r MethodGet url.
Definition Post send (r : Request) (url : string) := Execute send r MethodPost url.

(** [IsError()]: the status code is above 399. *)
Definition IsError (r : Response) : bool := (399 <? StatusCode r)%Z.

(** [IsSuccess()]: the status code is in 200..299. *)
Definition IsSuccess (r : Response) : bool :=
  ((199 <? StatusCode r) && (StatusCode r <? 300))%Z.
End resty.
End resty.


(** * Package gozaya: client.go *)

(** The store of [resty.Client]s: what a [*resty.Client] points to. *)
Abbreviation store := (gmap resty.ClientPtr resty.Client.t).

Section gozaya.
Context `{Declarations}.

(** [APIError], as the composite literals of [checkForError] build it. *)
Record APIError := {
  Code : Z;
  Message : string;
  Type_ : APIErrType
}.

Record GoZaya_Config := {
  CreateLinkEndpoint : string;
  GetLinkEndpoint : string
}.

Record GoZaya := {
  basePath : string;
  restyClient : resty.ClientPtr;
  Config : GoZaya_Config
}.

(** [GenerateLinkRequest], with the fields [CreateLink] reads: strings are
    compared with the empty string, [int]s with [0]. *)
Record GenerateLinkRequest := {
  Url : string;
  Alias : string;
  Password : string;
  Disable : Z;
  Public : Z;
  Description : string;
  ExpirationDate : string;
  ExpirationTime : string;
  ExpirationClicks : Z;
  Domain : Z;
  ExpirationUrl : string
}.

Definition adminClientID : string := "admin-cli".
Definition urlSeparator : string := "/".

Definition makeURL (path : list string) : string :=
  Go_strings.Join path urlSeparator.

(** The process-wide tracer that [opentracing.GlobalTracer()] returns, and
    the round trip of a request through its resty client and the network. *)
Variable GlobalTracer : opentracing.Tracer.
Variable RoundTrip : resty.Request → option resty.Response * option error.

(** [opentracing.HTTPHeadersCarrier(req.Header)] is the header map of the
    request itself, so what [Inject] writes into the carrier is written into
    the request, whether or not [Inject] then reports an error. *)
Definition injectTracingHeaders (ctx : context.Context) (req : resty.Request)
    : resty.Request :=
  (* look for span in context, do nothing if span is not found *)
  match context.SpanFromContext ctx with
  | None => req
  | Some span =>
      (* look for tracer in context, use global tracer if not found *)
      let tracer :=
        match context.Value_tracerContextKey ctx with
        | context.TracerValue tracer => tracer
        | _ => GlobalTracer
        end in
      (* inject tracing header into request *)
      let '(header, err) :=
        opentracing.Inject tracer (Span_Context span) opentracing.HTTPHeaders
          (resty.Header req) in
      let req := resty.with_Header req header in
      match err with
      | Some _ => req
      | None => req
      end
  end.

(** GetRequest returns a request for calling endpoints. *)
Definition GetRequest (g : GoZaya) (ctx : context.Context) : resty.Request :=
  injectTracingHeaders ctx
    (resty.SetError_HTTPErrorResponse
       (resty.SetContext (resty.R (restyClient g)) ctx)).

Definition GetRequestWithBearerAuthNoCache (g : GoZaya) (ctx : context.Context)
    (token : string) : resty.Request :=
  resty.SetHeader
    (resty.SetHeader (resty.SetAuthToken (GetRequest g ctx) token)
       "Content-Type" "application/json")
    "Cache-Control" "no-cache".

Definition GetRequestWithBearerAuth (g : GoZaya) (ctx : context.Context)
    (token : string) : resty.Request :=
  resty.SetHeader (resty.SetAuthToken (GetRequest g ctx) token)
    "Content-Type" "application/json".

Definition GetRequestFormData (g : GoZaya) (ctx : context.Context)
    (token : string) : resty.Request :=
  resty.SetHeader (resty.SetAuthToken (GetRequest g ctx) token)
    "Content-Type" "application/x-www-form-urlencoded".

(** A functional option [func(g *GoZaya)]: it may change the client it is
    given and, through the handles it knows, the store. *)
Definition Option_ : Type := GoZaya → store → GoZaya * store.

Definition NewClient (basePath_ : string) (options : list Option_) (σ : store)
    : GoZaya * store :=
  (* resty.New() allocates a client *)
  let p := fresh (dom σ) in
  let σ := <[p := resty.New]> σ in
  let c := {| basePath := Go_strings.TrimRight basePath_ urlSeparator;
              restyClient := p;
              Config := {| CreateLinkEndpoint := ""; GetLinkEndpoint := "" |} |} in
  let c := {| basePath := basePath c; restyClient := restyClient c;
              Config := {| CreateLinkEndpoint := makeURL ["api"; "v1"; "links"];
                           GetLinkEndpoint := GetLinkEndpoint (Config c) |} |} in
  let c := {| basePath := basePath c; restyClient := restyClient c;
              Config := {| CreateLinkEndpoint := CreateLinkEndpoint (Config c);
                           GetLinkEndpoint := makeURL ["api"; "v1"; "links"] |} |} in
  foldl (λ (s : GoZaya * store) (option : Option_), option s.1 s.2) (c, σ) options.

(** RestyClient returns the internal resty client. *)
Definition RestyClient (g : GoZaya) : resty.ClientPtr := restyClient g.

(** SetRestyClient overwrites the internal resty client.  [SetTimeout]
    dereferences the handle: on a handle that points to no client (nil) the
    call panics, which is [None]. *)
Definition SetRestyClient (g : GoZaya) (restyClient_ : resty.ClientPtr) (σ : store)
    : option (GoZaya * store) :=
  let g := {| basePath := basePath g; restyClient := restyClient_;
              Config := Config g |} in
  c ← σ !! restyClient g;
  Some (g, <[restyClient g := resty.SetTimeout c (30 * time.Second)]> σ).

Definition checkForError (resp : option resty.Response) (err : option error)
    (errMessage : string) : option APIError :=
  match err with
  | Some e =>
      Some {| Code := 0;
              Message := errors.withStack_Error (errors.Wrap e errMessage);
              Type_ := ParseAPIErrType err |}
  | None =>
      match resp with
      | None =>
          Some {| Code := 0;
                  Message := "empty response";
                  Type_ := ParseAPIErrType err |}
      | Some resp =>
          if resty.IsError resp then
            let from_body :=
              match resty.Body resp with
              | Some body =>
                  (* If the body contains a message, include it *)
                  let bodyMsg := body in
                  fmt.Sprintf_s_colon_s (resty.Status resp) bodyMsg
              | None => resty.Status resp
              end in
            (* Parse the error message from the body if available *)
            let msg :=
              match resty.Response_Error resp with
              | resty.ptr_HTTPErrorResponse e =>
                  if HTTPErrorResponse_NotEmpty e then
                    fmt.Sprintf_s_colon_s (resty.Status resp)
                      (HTTPErrorResponse_String e)
                  else from_body
              | _ => from_body
              end in
            Some {| Code := resty.StatusCode resp;
                    Message := msg;
                    Type_ := ParseAPIErrType err |}
          else None
      end
  end.

(** The local [form] of [CreateLink] after its eleven tests. *)
Definition CreateLink_form (link : GenerateLinkRequest) : gmap string string :=
  let form : gmap string string := ∅ in
  let form := if negb (String.eqb (Url link) "")
              then <["url" := Url link]> form else form in
  let form := if negb (String.eqb (Alias link) "")
              then <["alias" := Alias link]> form else form in
  let form := if negb (String.eqb (Password link) "")
              then <["password" := Password link]> form else form in
  let form := if negb (Disable link =? 0)%Z
              then <["disable" := strconv.Itoa (Disable link)]> form else form in
  let form := if negb (Public link =? 0)%Z
              then <["public" := strconv.Itoa (Public link)]> form else form in
  let form := if negb (String.eqb (Description link) "")
              then <["description" := Description link]> form else form in
  let form := if negb (String.eqb (ExpirationDate link) "")
              then <["expiration_date" := ExpirationDate link]> form else form in
  let form := if negb (String.eqb (ExpirationTime link) "")
              then <["expiration_time" := ExpirationTime link]> form else form in
  let form := if negb (ExpirationClicks link =? 0)%Z
              then <["expiration_clicks" := strconv.Itoa (ExpirationClicks link)]> form
              else form in
  let form := if negb (Domain link =? 0)%Z
              then <["domain" := strconv.Itoa (Domain link)]> form else form in
  let form := if negb (String.eqb (ExpirationUrl link) "")
              then <["expiration_url" := ExpirationUrl link]> form else form in
  form.

(** The request [CreateLink] builds, and the URL it posts it to. *)
Definition CreateLink_request (g : GoZaya) (ctx : context.Context)
    (token : string) (link : GenerateLinkRequest) : resty.Request :=
  resty.SetFormData (GetRequestFormData g ctx token) (CreateLink_form link).

Definition CreateLink_url (g : GoZaya) : string :=
  (basePath g +:+ "/") +:+ CreateLinkEndpoint (Config g).

(** [link] is the request that the pointer argument points to. *)
Definition CreateLink (g : GoZaya) (ctx : context.Context) (token : string)
    (link : GenerateLinkRequest) : option ResponseModel * option APIError :=
  let result := ResponseModel_zero in
  let '(resp, err) :=
    resty.Post RoundTrip (CreateLink_request g ctx token link) (CreateLink_url g) in
  match checkForError resp err "failed to create link" with
  | Some err => (None, Some err)
  | None => (Some result, None)
  end.

(** The request [GetLink] builds, and the URL it gets. *)
Definition GetLink_request (g : GoZaya) (ctx : context.Context)
    (token : string) : resty.Request :=
  GetRequestWithBearerAuthNoCache g ctx token.

Definition GetLink_url (g : GoZaya) (id : string) : string :=
  (((basePath g +:+ "/") +:+ GetLinkEndpoint (Config g)) +:+ "/") +:+ id.

Definition GetLink (g : GoZaya) (ctx : context.Context) (token : string)
    (id : string) : option ResponseModel * option APIError :=
  let result := ResponseModel_zero in
  let '(resp, err) :=
    resty.Get RoundTrip (GetLink_request g ctx token) (GetLink_url g id) in
  match checkForError resp err "failed to get link" with
  | Some err => (None, Some err)
  | None => (Some result, None)
  end.

End gozaya.

(** * A concrete reading of the declarations

    To run the client on examples: errors are their texts, the error kinds are
    the four of the specification, a structured error body is its message,
    a response model is a string, and spans carry a trace id. *)

Inductive sample_APIErrType := Network | Timeout | Parsing | Unknown.

Definition sample : Declarations := {|
  error := string;
  error_Error := λ e, e;
  APIErrType := sample_APIErrType;
  ParseAPIErrType := λ _, Unknown;
  HTTPErrorResponse := string;
  HTTPErrorResponse_zero := "";
  HTTPErrorResponse_NotEmpty := λ e, negb (String.eqb e "");
  HTTPErrorResponse_String := λ e, e;
  ResponseModel := string;
  ResponseModel_zero := "";
  Span := string;
  SpanContext := string;
  Span_Context := λ span, span
|}.

(** A tracer that writes nothing and reports no error, like opentracing's
    [NoopTracer]. *)
Definition noop_tracer : opentracing.Tracer (H := sample) :=
  @opentracing.Build_Tracer sample (λ _ _ carrier, (carrier, None)).

(** A tracer that writes its trace id into the carrier and then reports an
    error. *)
Definition failing_tracer : opentracing.Tracer (H := sample) :=
  @opentracing.Build_Tracer sample
    (λ sc _ carrier, (Header_Set carrier "Trace-Id" sc, Some "injection failed")).

(** A tracer that writes its trace id into the carrier. *)
Definition id_tracer : opentracing.Tracer (H := sample) :=
  @opentracing.Build_Tracer sample
    (λ sc _ carrier, (Header_Set carrier "Trace-Id" sc, None)).

(** Contexts: without a span, and with a span and a tracer of its own. *)
Definition background : context.Context (H := sample) :=
  @context.Build_Context sample None context.NoValue.

Definition traced (t : opentracing.Tracer (H := sample)) : context.Context (H := sample) :=
  @context.Build_Context sample (Some "span-1") (context.TracerValue t).

(** Responses. *)
Definition not_modified : resty.Response (H := sample) :=
  @resty.Build_Response sample 304 "304 Not Modified" (Some "")
    (@resty.ptr_HTTPErrorResponse sample "").

Definition not_found_empty_body : resty.Response (H := sample) :=
  @resty.Build_Response sample 404 "404 Not Found" (Some "")
    (@resty.ptr_HTTPErrorResponse sample "").

Definition ok_response : resty.Response (H := sample) :=
  @resty.Build_Response sample 200 "200 OK" (Some "{}")
    (@resty.ptr_HTTPErrorResponse sample "").

Definition unprocessable : resty.Response (H := sample) :=
  @resty.Build_Response sample 422 "422 Unprocessable Entity" (Some "alias taken")
    (@resty.ptr_HTTPErrorResponse sample "taken").

(** * Notions of the specification *)

Section notions.
Context `{Declarations}.

(** The structured error body of a response: the registered error object when
    it is an [HTTPErrorResponse] that the decoder filled in. *)
Definition structured_body (resp : resty.Response) : option HTTPErrorResponse :=
  match resty.Response_Error resp with
  | resty.ptr_HTTPErrorResponse e =>
      if HTTPErrorResponse_NotEmpty e then Some e else None
  | _ => None
  end.

(** The tracer [injectTracingHeaders] injects with: the one the context
    holds when it holds a tracer, the process-wide one otherwise. *)
Definition tracer_of (GlobalTracer : opentracing.Tracer) (ctx : context.Context)
    : opentracing.Tracer :=
  match context.Value_tracerContextKey ctx with
  | context.TracerValue t => t
  | context.NoValue | context.OtherValue => GlobalTracer
  end.

(** What the tracer does to the header of a request when it is asked to
    inject the span: the carrier as it leaves it, and its verdict. *)
Definition injection (GlobalTracer : opentracing.Tracer) (ctx : context.Context)
    (span : Span) (req : resty.Request) : http_Header * option error :=
  opentracing.Inject (tracer_of GlobalTracer ctx) (Span_Context span)
    opentracing.HTTPHeaders (resty.Header req).

(** An outcome of an operation is a result or an error, never both and never
    neither. *)
Definition exactly_one (outcome : option ResponseModel * option APIError) : Prop :=
  (is_Some outcome.1 ∧ outcome.2 = None) ∨ (outcome.1 = None ∧ is_Some outcome.2).

(** A failed round trip in the words of the specification: the transport
    reports an error, there is no response, or the status of the response is
    not a 2xx status. *)
Definition failure (trip : option resty.Response * option error) : Prop :=
  is_Some trip.2
  ∨ trip.1 = None
  ∨ ∃ resp, trip.1 = Some resp
            ∧ ¬ (200 <= resty.StatusCode resp <= 299)%Z.

(** The request [GetLink] hands to its client. *)
Definition GetLink_sent (GlobalTracer : opentracing.Tracer) (g : GoZaya) (ctx : context.Context) (token id : string)
    : resty.Request :=
  resty.prepare (GetLink_request GlobalTracer g ctx token) resty.MethodGet
    (GetLink_url g id).

(** The request [CreateLink] hands to its client. *)
Definition CreateLink_sent (GlobalTracer : opentracing.Tracer) (g : GoZaya) (ctx : context.Context) (token : string)
    (link : GenerateLinkRequest) : resty.Request :=
  resty.prepare (CreateLink_request GlobalTracer g ctx token link) resty.MethodPost
    (CreateLink_url g).

(** An option leaves the base path of the client alone, as every option
    that assigns fields from outside the package must: the field is not
    exported. *)
Definition keeps_basePath (option : Option_) : Prop :=
  ∀ (c : GoZaya) (σ : store), basePath (option c σ).1 = basePath c.

(** An option leaves a base path without a trailing separator in the client
    when it finds one: it keeps the base path, or takes the base path of a
    client that [NewClient] built. *)
Definition keeps_stripped (option : Option_) : Prop :=
  ∀ (c : GoZaya) (σ : store),
    Go_strings.HasSuffix (basePath c) "/" = false →
    Go_strings.HasSuffix (basePath (option c σ).1) "/" = false.

End notions.

(** The value of a decimal digit. *)
Definition digit_value (c : ascii) : option Z :=
  let n := N_of_ascii c in
  if ((48 <=? n) && (n <=? 57))%N then Some (Z.of_N n - 48) else None.

(** Read a string of decimal digits, the most significant first. *)
Fixpoint read_digits (s : string) (acc : Z) : option Z :=
  match s with
  | EmptyString => Some acc
  | String c r =>
      match digit_value c with
      | Some d => read_digits r (10 * acc + d)
      | None => None
      end
  end.

(** The number that a decimal string denotes: digits, after a minus sign for
    a negative number; no other string is a decimal string. *)
Definition decimal (s : string) : option Z :=
  match s with
  | EmptyString => None
  | String c r =>
      if Ascii.eqb c "-" then
        if String.eqb r "" then None else Z.opp <$> read_digits r 0
      else read_digits s 0
  end.

(** What the posted form must hold under the key of a string field: nothing
    when the field is empty, the string as its single value otherwise. *)
Definition posts_text (s : string) (entry : option (list string)) : Prop :=
  if decide (s = "") then entry = None else entry = Some [s].

(** What the posted form must hold under the key of a numeric field: nothing
    when the field is zero, a single decimal string that denotes the number
    otherwise. *)
Definition posts_decimal (n : Z) (entry : option (list string)) : Prop :=
  if decide (n = 0) then entry = None
  else ∃ v : string, entry = Some [v] ∧ decimal v = Some n.

(** The names of the form fields of [CreateLink]. *)
Definition form_fields : list string :=
  ["url"; "alias"; "password"; "disable"; "public"; "description";
   "expiration_date"; "expiration_time"; "expiration_clicks"; "domain";
   "expiration_url"].

(** What the payload holds for a field: nothing when the field has its zero
    value, the string itself, or the decimal rendering of the number. *)
Definition string_field (s : string) : option string :=
  if decide (s = "") then None else Some s.

Definition numeric_field (n : Z) : option string :=
  if decide (n = 0) then None else Some (strconv.Itoa n).

Definition only_Url (link : GenerateLinkRequest) : Prop :=
  Url link ≠ "" ∧ Alias link = "" ∧ Password link = "" ∧ Disable link = 0
  ∧ Public link = 0 ∧ Description link = "" ∧ ExpirationDate link = ""
  ∧ ExpirationTime link = "" ∧ ExpirationClicks link = 0 ∧ Domain link = 0
  ∧ ExpirationUrl link = "".

Definition all_set (link : GenerateLinkRequest) : Prop :=
  Url link ≠ "" ∧ Alias link ≠ "" ∧ Password link ≠ "" ∧ Disable link ≠ 0
  ∧ Public link ≠ 0 ∧ Description link ≠ "" ∧ ExpirationDate link ≠ ""
  ∧ ExpirationTime link ≠ "" ∧ ExpirationClicks link ≠ 0 ∧ Domain link ≠ 0
  ∧ ExpirationUrl link ≠ "".

(** Requests to create a link. *)
Definition only_url_link : GenerateLinkRequest :=
  {| Url := "https://example.com/a/long/path"; Alias := ""; Password := "";
     Disable := 0; Public := 0; Description := ""; ExpirationDate := "";
     ExpirationTime := ""; ExpirationClicks := 0; Domain := 0;
     ExpirationUrl := "" |}.

Definition all_fields_link : GenerateLinkRequest :=
  {| Url := "https://example.com/a/long/path"; Alias := "promo";
     Password := "s3cret"; Disable := 1; Public := 1;
     Description := "spring campaign"; ExpirationDate := "2030-01-31";
     ExpirationTime := "23:59"; ExpirationClicks := 1000; Domain := 42;
     ExpirationUrl := "https://example.com/expired" |}.

(** Options: one that moves the get-link endpoint, one that moves the
    create-link endpoint. *)
Definition with_get_endpoint (endpoint : string) : Option_ :=
  λ c σ, ({| basePath := basePath c; restyClient := restyClient c;
             Config := {| CreateLinkEndpoint := CreateLinkEndpoint (Config c);
                          GetLinkEndpoint := endpoint |} |}, σ).

Definition with_create_endpoint (endpoint : string) : Option_ :=
  λ c σ, ({| basePath := basePath c; restyClient := restyClient c;
             Config := {| CreateLinkEndpoint := endpoint;
                          GetLinkEndpoint := GetLinkEndpoint (Config c) |} |}, σ).

(** A resty client that its owner configured with a timeout of five seconds,
    and a store that holds it. *)
Definition five_seconds_client : resty.Client.t :=
  resty.SetTimeout resty.New (5 * time.Second).

Definition one_client_store : store := {[ 7%positive := five_seconds_client ]}.

(** The client [NewClient] builds for the base path of the service in an
    empty store. *)
Definition zaya : GoZaya := (NewClient "https://zaya.io/" [] ∅).1.

(** Round trips that answer every request the same way. *)
Definition answers (resp : option (resty.Response (H := sample)))
    (err : option string) (_ : resty.Request (H := sample))
    : option (resty.Response (H := sample)) * option (error (Declarations := sample)) :=
  (resp, err).


(** * Further values *)

(** The zero value of [GenerateLinkRequest]. *)
Definition zero_link : GenerateLinkRequest :=
  {| Url := ""; Alias := ""; Password := ""; Disable := 0; Public := 0;
     Description := ""; ExpirationDate := ""; ExpirationTime := "";
     ExpirationClicks := 0; Domain := 0; ExpirationUrl := "" |}.

(** A tracer that claims the headers the builders set. *)
Definition greedy_tracer : opentracing.Tracer (H := sample) :=
  @opentracing.Build_Tracer sample
    (λ sc _ carrier,
       (Header_Set
          (Header_Set (Header_Set (Header_Set carrier "Trace-Id" sc)
                         "Content-Type" "text/plain")
             "Cache-Control" "public")
          "Authorization" "Basic dHJhY2Vy",
        None)).

(** A response of a server that is down. *)
Definition unavailable : resty.Response (H := sample) :=
  @resty.Build_Response sample 503 "503 Service Unavailable" None
    (@resty.ptr_HTTPErrorResponse sample "").

(** * The library functions on examples *)

Example TrimRight_one_separator :
  Go_strings.TrimRight "https://zaya.io/" "/" = "https://zaya.io".
Proof. reflexivity. Qed.

Example TrimRight_many_separators :
  Go_strings.TrimRight "https://zaya.io/api///" "/" = "https://zaya.io/api".
Proof. reflexivity. Qed.

Example TrimRight_only_separators : Go_strings.TrimRight "//" "/" = "".
Proof. reflexivity. Qed.

Example makeURL_links : makeURL ["api"; "v1"; "links"] = "api/v1/links".
Proof. reflexivity. Qed.

Example Itoa_examples :
  strconv.Itoa 0 = "0" ∧ strconv.Itoa 1000 = "1000" ∧ strconv.Itoa (-7) = "-7".
Proof. repeat split. Qed.

(** The empty string, a space and a tab, and a no-break space (U+00A0) are
    blank; a token is not. *)
Example IsStringEmpty_examples :
  resty.IsStringEmpty "" = true
  ∧ resty.IsStringEmpty (String " " (String "009" "")) = true
  ∧ resty.IsStringEmpty (String "194" (String "160" "")) = true
  ∧ resty.IsStringEmpty "eyJhbGciOi" = false
  ∧ resty.IsStringEmpty " x " = false.
Proof. repeat split. Qed.

(** A string that starts with a visible ASCII character is not blank. *)
Lemma IsStringEmpty_visible (a : ascii) (s : string) :
  (33 <= N_of_ascii a <= 126)%N → resty.IsStringEmpty (String a s) = false.
Proof.
  intros [Hlo Hhi]. unfold resty.IsStringEmpty.
  assert (Hascii : Go_strings.asciiSpace a = false).
  { unfold Go_strings.asciiSpace.
    destruct (N.leb_spec 9 (N_of_ascii a)), (N.leb_spec (N_of_ascii a) 13),
      (N.eqb_spec (N_of_ascii a) 32); simpl; try reflexivity; lia. }
  assert (Hlead : ∀ b c, Go_strings.space2 a b = false ∧ Go_strings.space3 a b c = false).
  { intros b c. unfold Go_strings.space2, Go_strings.space3.
    destruct (N.eqb_spec (N_of_ascii a) 194); [lia|].
    destruct (N.eqb_spec (N_of_ascii a) 225); [lia|].
    destruct (N.eqb_spec (N_of_ascii a) 226); [lia|].
    destruct (N.eqb_spec (N_of_ascii a) 227); [lia|].
    by split. }
  cbn [Go_strings.TrimLeftSpace]. rewrite Hascii.
  destruct s as [|b [|c s]]; [reflexivity| |].
  - destruct (Hlead b b) as [-> _]. reflexivity.
  - destruct (Hlead b c) as [-> ->]. reflexivity.
Qed.

(** * Strings *)

Lemma append_assoc (a b c : string) : (a +:+ b) +:+ c = a +:+ (b +:+ c).
Proof.
  induction a as [|x a IH]; [done|].
  change (String x ((a +:+ b) +:+ c) = String x (a +:+ (b +:+ c))).
  by rewrite IH.
Qed.

Lemma length_append (a b : string) :
  String.length (a +:+ b) = (String.length a + String.length b)%nat.
Proof.
  induction a as [|x a IH]; [done|].
  change (S (String.length (a +:+ b)) = S (String.length a + String.length b)).
  by rewrite IH.
Qed.

Lemma prefix_append (a b : string) : String.prefix a (a +:+ b) = true.
Proof.
  induction a as [|x a IH]; [by destruct b|].
  change (String.prefix (String x a) (String x (a +:+ b)) = true).
  simpl. by destruct (Ascii.ascii_dec x x).
Qed.

Lemma substring_all (b : string) : String.substring 0 (String.length b) b = b.
Proof. induction b as [|x b IH]; [done|]. simpl. by rewrite IH. Qed.

Lemma substring_skip (a b : string) (m : nat) :
  String.substring (String.length a) m (a +:+ b) = String.substring 0 m b.
Proof.
  induction a as [|x a IH]; [done|].
  change (String.substring (S (String.length a)) m (String x (a +:+ b))
          = String.substring 0 m b).
  simpl. apply IH.
Qed.

(** A string has every string it ends with as a suffix. *)
Lemma HasSuffix_append (a b : string) : Go_strings.HasSuffix (a +:+ b) b = true.
Proof.
  unfold Go_strings.HasSuffix. rewrite length_append.
  apply andb_true_iff. split; [apply Nat.leb_le; lia|].
  replace (String.length a + String.length b - String.length b)%nat
    with (String.length a) by lia.
  rewrite substring_skip, substring_all. apply String.eqb_refl.
Qed.

(** * Error classification: checkForError *)

Section checkForError_properties.
Context `{Declarations}.

Lemma checkForError_no_error (resp : resty.Response) (errMessage : string) :
  resty.IsError resp = false → checkForError (Some resp) None errMessage = None.
Proof. intros Hok. unfold checkForError. by rewrite Hok. Qed.

Lemma checkForError_success (resp : resty.Response) (errMessage : string) :
  resty.IsSuccess resp = true → checkForError (Some resp) None errMessage = None.
Proof.
  intros Hok. apply checkForError_no_error.
  unfold resty.IsSuccess in Hok. unfold resty.IsError.
  apply andb_true_iff in Hok as [_ Hlt]. apply Z.ltb_lt in Hlt.
  apply Z.ltb_ge. lia.
Qed.

Lemma checkForError_is_error (resp : resty.Response) (errMessage : string) :
  resty.IsError resp = true →
  is_Some (checkForError (Some resp) None errMessage).
Proof. intros Herr. unfold checkForError. rewrite Herr. by eexists. Qed.

(** C1 (as amended): with a nil transport error and a response whose status
    code is above 399, [checkForError] returns an [APIError] whose [Code] is
    the status code.  Its [Message] is the status line, a colon and the
    rendering of the structured error body when that body was decoded and is
    not empty; otherwise the status line, a colon and the raw body text when
    the raw body is not empty; otherwise the status line alone when the
    response has no body. *)
Theorem checkForError_http_error (resp : resty.Response) (errMessage : string) :
  (399 < resty.StatusCode resp)%Z →
  ∃ apiErr : APIError,
    checkForError (Some resp) None errMessage = Some apiErr
    ∧ Code apiErr = resty.StatusCode resp
    ∧ match structured_body resp with
      | Some e =>
          Message apiErr = resty.Status resp +:+ ": " +:+ HTTPErrorResponse_String e
      | None =>
          match resty.Body resp with
          | Some body =>
              body ≠ "" → Message apiErr = resty.Status resp +:+ ": " +:+ body
          | None => Message apiErr = resty.Status resp
          end
      end.
Proof.
  intros Hcode. apply Z.ltb_lt in Hcode.
  unfold checkForError, resty.IsError, structured_body. rewrite Hcode.
  eexists. split; [reflexivity|]. split; [reflexivity|]. simpl.
  destruct (resty.Response_Error resp) as [|e| |]; simpl;
    try (destruct (HTTPErrorResponse_NotEmpty e); simpl);
    try reflexivity;
    destruct (resty.Body resp); auto.
Qed.

(** C2: with a non-nil transport error, whatever the response, the returned
    [APIError] has [Code] 0 and a [Message] that is the context message, a
    colon and the text of the transport error: it starts with the context
    message and ends with the text of the error.  The response plays no part
    in it. *)
Theorem checkForError_transport_error (resp : option resty.Response) (e : error)
    (errMessage : string) :
  ∃ apiErr : APIError,
    checkForError resp (Some e) errMessage = Some apiErr
    ∧ Code apiErr = 0
    ∧ Message apiErr = errMessage +:+ ": " +:+ error_Error e
    ∧ Go_strings.HasPrefix (Message apiErr) errMessage = true
    ∧ Go_strings.HasSuffix (Message apiErr) (error_Error e) = true
    ∧ Type_ apiErr = ParseAPIErrType (Some e)
    ∧ checkForError None (Some e) errMessage = Some apiErr.
Proof.
  eexists. split; [reflexivity|]. simpl.
  unfold errors.withStack_Error, errors.withMessage_Error. simpl.
  repeat split.
  - apply prefix_append.
  - rewrite <- append_assoc. apply HasSuffix_append.
Qed.

(** C3: with a nil response and a nil transport error, the returned
    [APIError] has the [Message] [empty response] and [Code] 0, whatever the
    context message. *)
Theorem checkForError_empty_response (errMessage : string) :
  ∃ apiErr : APIError,
    checkForError None None errMessage = Some apiErr
    ∧ Code apiErr = 0
    ∧ Message apiErr = "empty response"
    ∧ Type_ apiErr = ParseAPIErrType None.
Proof. eexists. by repeat split. Qed.

End checkForError_properties.

Lemma checkForError_http_error_witness :
  (399 < 422)%Z
  ∧ ∃ apiErr : APIError (H := sample),
      checkForError (Some unprocessable) None "failed to create link" = Some apiErr
      ∧ Code apiErr = 422
      ∧ Message apiErr = "422 Unprocessable Entity: taken".
Proof.
  split; [reflexivity|].
  exact (checkForError_http_error unprocessable "failed to create link" eq_refl).
Defined.

(** A 304 response is not a 2xx response, and [checkForError] reports no
    error for it: the claim C1 as stated fails there. *)
Lemma checkForError_non_2xx_counterexample :
  resty.IsSuccess not_modified = false
  ∧ checkForError (Some not_modified) None "failed to get link" = None.
Proof. split; reflexivity. Qed.

(** A 404 response whose body is empty but not nil: the message ends with the
    colon and a space, with no detail after them. *)
Example checkForError_empty_body :
  Message <$> checkForError (Some not_found_empty_body) None "failed to get link"
  = Some "404 Not Found: ".
Proof. reflexivity. Qed.

(** * Tracing injection *)

Section injectTracingHeaders_properties.
Context `{Declarations}.
Variable GlobalTracer : opentracing.Tracer.

Lemma with_Header_same (req : resty.Request) :
  resty.with_Header req (resty.Header req) = req.
Proof. by destruct req. Qed.

(** Whatever the context holds, [injectTracingHeaders] returns the request it
    was given with, at most, another header. *)
Lemma injectTracingHeaders_Header_only (ctx : context.Context) (req : resty.Request) :
  injectTracingHeaders GlobalTracer ctx req
  = resty.with_Header req (resty.Header (injectTracingHeaders GlobalTracer ctx req)).
Proof.
  unfold injectTracingHeaders.
  destruct (context.SpanFromContext ctx) as [span|]; [|by rewrite with_Header_same].
  match goal with |- context [opentracing.Inject ?t ?sc ?f ?h] =>
    destruct (opentracing.Inject t sc f h) as [header [e|]] end; reflexivity.
Qed.

Lemma injectTracingHeaders_span (ctx : context.Context) (span : Span)
    (req : resty.Request) :
  context.SpanFromContext ctx = Some span →
  injectTracingHeaders GlobalTracer ctx req
  = resty.with_Header req (injection GlobalTracer ctx span req).1.
Proof.
  intros Hspan. unfold injectTracingHeaders, injection, tracer_of. rewrite Hspan.
  destruct (context.Value_tracerContextKey ctx) as [|t|];
    match goal with |- context [opentracing.Inject ?t ?sc ?f ?h] =>
      destruct (opentracing.Inject t sc f h) as [header [e|]] end; reflexivity.
Qed.

(** C10 (as amended): [injectTracingHeaders] has no error to return and
    always returns the request it was given, changed at most in its header.
    Without a span in the context the request is returned unmodified.  With a
    span, the tracer is the one of the context when the context holds a
    tracer and the process-wide one otherwise, and the header of the returned
    request is the carrier as that tracer left it, whether the injection
    succeeded or failed: after a failed injection the request is unmodified
    when the tracer left the carrier as it was. *)
Theorem injectTracingHeaders_best_effort (ctx : context.Context)
    (req : resty.Request) :
  injectTracingHeaders GlobalTracer ctx req
  = resty.with_Header req (resty.Header (injectTracingHeaders GlobalTracer ctx req))
  ∧ (context.SpanFromContext ctx = None →
       injectTracingHeaders GlobalTracer ctx req = req)
  ∧ (∀ span, context.SpanFromContext ctx = Some span →
       (∀ t, context.Value_tracerContextKey ctx = context.TracerValue t →
             tracer_of GlobalTracer ctx = t)
       ∧ (context.Value_tracerContextKey ctx = context.NoValue
          ∨ context.Value_tracerContextKey ctx = context.OtherValue →
             tracer_of GlobalTracer ctx = GlobalTracer)
       ∧ injectTracingHeaders GlobalTracer ctx req
         = resty.with_Header req (injection GlobalTracer ctx span req).1
       ∧ (is_Some (injection GlobalTracer ctx span req).2 →
          (injection GlobalTracer ctx span req).1 = resty.Header req →
          injectTracingHeaders GlobalTracer ctx req = req)).
Proof.
  split; [apply injectTracingHeaders_Header_only|]. split.
  - intros Hspan. unfold injectTracingHeaders. by rewrite Hspan.
  - intros span Hspan. split; [|split; [|split]].
    + intros t Ht. unfold tracer_of. by rewrite Ht.
    + intros [Hv|Hv]; unfold tracer_of; by rewrite Hv.
    + by apply injectTracingHeaders_span.
    + intros _ Hsame. rewrite (injectTracingHeaders_span _ _ _ Hspan), Hsame.
      apply with_Header_same.
Qed.

End injectTracingHeaders_properties.

Lemma injectTracingHeaders_best_effort_witness :
  injectTracingHeaders noop_tracer background (resty.R 1%positive)
  = resty.R 1%positive.
Proof.
  apply (injectTracingHeaders_best_effort noop_tracer background (resty.R 1%positive)).
  reflexivity.
Defined.

(** A tracer that fails after it wrote: the injection reports an error, and
    the request that [injectTracingHeaders] returns carries the tracing
    header.  The claim C10 as stated fails there. *)
Lemma injectTracingHeaders_failed_injection_counterexample :
  is_Some (injection noop_tracer (traced failing_tracer) "span-1"
             (resty.R 1%positive)).2
  ∧ resty.Header
      (injectTracingHeaders noop_tracer (traced failing_tracer) (resty.R 1%positive))
    !! "Trace-Id" = Some ["span-1"].
Proof. split; [by eexists | reflexivity]. Qed.

(** * The form of CreateLink *)

(** [strconv.Itoa] prints a decimal numeral: reading it back gives the
    number. *)
Lemma Itoa_decimal (n : Z) :
  Z.of_int <$> NilEmpty.int_of_string (strconv.Itoa n) = Some n.
Proof.
  unfold strconv.Itoa. rewrite NilEmpty.isi. simpl. f_equal. apply DecimalZ.of_to.
Qed.

Lemma Itoa_inj (n m : Z) : strconv.Itoa n = strconv.Itoa m → n = m.
Proof.
  intros Heq. pose proof (Itoa_decimal n) as Hn. rewrite Heq, Itoa_decimal in Hn.
  congruence.
Qed.

Lemma cond_insert_lookup_ne (b : bool) (k v : string) (m : gmap string string)
    (key : string) :
  k ≠ key → (if b then <[k := v]> m else m) !! key = m !! key.
Proof. intros. destruct b; [by apply lookup_insert_ne | done]. Qed.

Lemma cond_insert_lookup_eq (b : bool) (k v : string) (m : gmap string string) :
  m !! k = None →
  (if b then <[k := v]> m else m) !! k = if b then Some v else None.
Proof. intros. destruct b; [apply lookup_insert_eq | done]. Qed.

Lemma string_field_eqb (s : string) :
  (if negb (String.eqb s "") then Some s else None) = string_field s.
Proof.
  unfold string_field. destruct (String.eqb_spec s ""); case_decide; simpl; congruence.
Qed.

Lemma numeric_field_eqb (n : Z) :
  (if negb (n =? 0)%Z then Some (strconv.Itoa n) else None) = numeric_field n.
Proof.
  unfold numeric_field. destruct (Z.eqb_spec n 0); case_decide; simpl; congruence.
Qed.

Lemma string_set (s : string) : s ≠ "" → negb (String.eqb s "") = true.
Proof. intros. by destruct (String.eqb_spec s ""). Qed.

Lemma string_unset (s : string) : s = "" → negb (String.eqb s "") = false.
Proof. intros. by destruct (String.eqb_spec s ""). Qed.

Lemma number_set (n : Z) : n ≠ 0 → negb (n =? 0)%Z = true.
Proof. intros. by destruct (Z.eqb_spec n 0). Qed.

Lemma number_unset (n : Z) : n = 0 → negb (n =? 0)%Z = false.
Proof. intros. by destruct (Z.eqb_spec n 0). Qed.

(** Look a literal key up in the form: skip the conditional insertions of
    the other keys, then read the test of the one that matches. *)
Ltac skip_fields := repeat (rewrite cond_insert_lookup_ne by discriminate).

Ltac form_lookup :=
  unfold CreateLink_form; cbv zeta; skip_fields;
  rewrite cond_insert_lookup_eq by (skip_fields; apply lookup_empty);
  first [apply string_field_eqb | apply numeric_field_eqb].

Lemma CreateLink_form_other (link : GenerateLinkRequest) (key : string) :
  key ∉ form_fields → CreateLink_form link !! key = None.
Proof.
  intros Hkey. unfold CreateLink_form; cbv zeta.
  repeat (rewrite cond_insert_lookup_ne;
          [| intros <-; apply Hkey; unfold form_fields;
             repeat (first [apply list_elem_of_here | apply list_elem_of_further])]).
  apply lookup_empty.
Qed.

Lemma CreateLink_form_only_Url (link : GenerateLinkRequest) :
  only_Url link → CreateLink_form link = {[ "url" := Url link ]}.
Proof.
  intros (Hu & Ha & Hp & Hd & Hpu & Hde & Hed & Het & Hec & Hdo & Heu).
  unfold CreateLink_form; cbv zeta.
  rewrite (string_set _ Hu), (string_unset _ Ha), (string_unset _ Hp),
    (number_unset _ Hd), (number_unset _ Hpu), (string_unset _ Hde),
    (string_unset _ Hed), (string_unset _ Het), (number_unset _ Hec),
    (number_unset _ Hdo), (string_unset _ Heu).
  reflexivity.
Qed.

Lemma CreateLink_form_all_set (link : GenerateLinkRequest) :
  all_set link →
  dom (CreateLink_form link) = list_to_set form_fields
  ∧ size (CreateLink_form link) = 11%nat.
Proof.
  intros (Hu & Ha & Hp & Hd & Hpu & Hde & Hed & Het & Hec & Hdo & Heu).
  unfold CreateLink_form; cbv zeta.
  rewrite (string_set _ Hu), (string_set _ Ha), (string_set _ Hp),
    (number_set _ Hd), (number_set _ Hpu), (string_set _ Hde),
    (string_set _ Hed), (string_set _ Het), (number_set _ Hec),
    (number_set _ Hdo), (string_set _ Heu).
  split.
  - rewrite !dom_insert_L, dom_empty_L. unfold form_fields. simpl. set_solver.
  - repeat (rewrite map_size_insert_None;
            [| repeat (rewrite lookup_insert_ne by discriminate); apply lookup_empty]).
    by rewrite map_size_empty.
Qed.

(** Reading back what [strconv.Itoa] prints gives the number: it prints a
    decimal string. *)
Lemma read_digits_acc (d : Decimal.uint) (acc : positive) :
  read_digits (NilEmpty.string_of_uint d) (Z.pos acc)
  = Some (Z.pos (Pos.of_uint_acc d acc)).
Proof.
  revert acc. induction d as [|d IH|d IH|d IH|d IH|d IH|d IH|d IH|d IH|d IH|d IH];
    intros acc; [reflexivity|..];
    cbn [NilEmpty.string_of_uint read_digits Pos.of_uint_acc];
    (match goal with |- context [digit_value ?c] =>
       let v := eval vm_compute in (digit_value c) in
       change (digit_value c) with v end);
    cbv iota beta; rewrite <- IH; f_equal; lia.
Qed.

Lemma read_digits_uint (d : Decimal.uint) :
  read_digits (NilEmpty.string_of_uint d) 0 = Some (Z.of_N (Pos.of_uint d)).
Proof.
  induction d as [|d IH|d IH|d IH|d IH|d IH|d IH|d IH|d IH|d IH|d IH];
    [reflexivity | exact IH | ..];
    cbn [NilEmpty.string_of_uint read_digits Pos.of_uint];
    (match goal with |- context [digit_value ?c] =>
       let v := eval vm_compute in (digit_value c) in
       change (digit_value c) with v end);
    cbv iota beta; apply read_digits_acc.
Qed.

Lemma decimal_Itoa (n : Z) : decimal (strconv.Itoa n) = Some n.
Proof.
  unfold strconv.Itoa. destruct n as [|p|p]; [reflexivity| |].
  - simpl. pose proof (Unsigned.to_uint_nonnil p) as Hnil.
    pose proof (read_digits_uint (Pos.to_uint p)) as Hread.
    rewrite Unsigned.of_to in Hread. simpl in Hread.
    destruct (Pos.to_uint p); [done|..]; exact Hread.
  - simpl. pose proof (read_digits_uint (Pos.to_uint p)) as Hread.
    rewrite Unsigned.of_to in Hread. simpl in Hread.
    assert (Hne : String.eqb (NilEmpty.string_of_uint (Pos.to_uint p)) "" = false).
    { pose proof (Unsigned.to_uint_nonnil p) as Hnil. by destruct (Pos.to_uint p). }
    unfold decimal. change (Ascii.eqb "-" "-") with true. cbv iota.
    by rewrite Hne, Hread.
Qed.

(** The posted entry of a field, from the entry of the local form. *)
Lemma posts_text_entry (s : string) (form : gmap string string) (key : string) :
  form !! key = string_field s →
  posts_text s (((λ v, [v]) <$> form) !! key).
Proof.
  intros Hentry. rewrite lookup_fmap, Hentry.
  unfold posts_text, string_field. by case_decide.
Qed.

Lemma posts_decimal_entry (n : Z) (form : gmap string string) (key : string) :
  form !! key = numeric_field n →
  posts_decimal n (((λ v, [v]) <$> form) !! key).
Proof.
  intros Hentry. rewrite lookup_fmap, Hentry.
  unfold posts_decimal, numeric_field. case_decide; [done|].
  exists (strconv.Itoa n). split; [done | apply decimal_Itoa].
Qed.

Section CreateLink_posts.
Context `{Declarations}.
Variable GlobalTracer : opentracing.Tracer.

(** The form data of the request that [CreateLink] hands to its client is
    the local form, each value on its own. *)
Lemma CreateLink_sent_FormData (g : GoZaya) (ctx : context.Context)
    (token : string) (link : GenerateLinkRequest) :
  resty.FormData (CreateLink_sent GlobalTracer g ctx token link)
  = (λ v, [v]) <$> CreateLink_form link.
Proof.
  unfold CreateLink_sent, CreateLink_request, resty.SetFormData,
    GetRequestFormData, GetRequest.
  rewrite injectTracingHeaders_Header_only. simpl. apply (right_id_L ∅ (∪)).
Qed.

(** C4: the outcome of [CreateLink] is the outcome of the round trip of one
    POST request, and the form of that request holds a field exactly when the
    field is not empty (a string) or not zero (a number): a string as it is,
    a number as a decimal string that denotes it, each as the single value of
    its key, and no other key.  A request with only [Url] set posts the form
    with the single key [url], and a request with all eleven fields set posts
    a form with the eleven keys. *)
Theorem CreateLink_form_sparse (g : GoZaya) (ctx : context.Context)
    (token : string) (link : GenerateLinkRequest) :
  let sent := CreateLink_sent GlobalTracer g ctx token link in
  (∀ RoundTrip,
     CreateLink GlobalTracer RoundTrip g ctx token link
     = match checkForError (RoundTrip sent).1 (RoundTrip sent).2
               "failed to create link" with
       | Some err => (None, Some err)
       | None => (Some ResponseModel_zero, None)
       end)
  ∧ resty.Method sent = "POST"
  ∧ posts_text (Url link) (resty.FormData sent !! "url")
  ∧ posts_text (Alias link) (resty.FormData sent !! "alias")
  ∧ posts_text (Password link) (resty.FormData sent !! "password")
  ∧ posts_decimal (Disable link) (resty.FormData sent !! "disable")
  ∧ posts_decimal (Public link) (resty.FormData sent !! "public")
  ∧ posts_text (Description link) (resty.FormData sent !! "description")
  ∧ posts_text (ExpirationDate link) (resty.FormData sent !! "expiration_date")
  ∧ posts_text (ExpirationTime link) (resty.FormData sent !! "expiration_time")
  ∧ posts_decimal (ExpirationClicks link)
      (resty.FormData sent !! "expiration_clicks")
  ∧ posts_decimal (Domain link) (resty.FormData sent !! "domain")
  ∧ posts_text (ExpirationUrl link) (resty.FormData sent !! "expiration_url")
  ∧ (∀ key, key ∉ form_fields → resty.FormData sent !! key = None)
  ∧ (only_Url link → resty.FormData sent = {[ "url" := [Url link] ]})
  ∧ (all_set link →
       dom (resty.FormData sent) = list_to_set form_fields
       ∧ size (resty.FormData sent) = 11%nat).
Proof.
  intros sent. subst sent. rewrite CreateLink_sent_FormData.
  split.
  { intros RoundTrip. unfold CreateLink, resty.Post, resty.Execute.
    fold (CreateLink_sent GlobalTracer g ctx token link).
    by destruct (RoundTrip (CreateLink_sent GlobalTracer g ctx token link)). }
  split; [reflexivity|].
  do 11 (split; [first [apply posts_text_entry | apply posts_decimal_entry];
                 form_lookup|]).
  split; [|split].
  - intros key Hkey. by rewrite lookup_fmap, CreateLink_form_other.
  - intros Honly. rewrite (CreateLink_form_only_Url link Honly).
    by rewrite map_fmap_singleton.
  - intros Hall. destruct (CreateLink_form_all_set link Hall) as [Hdom Hsize].
    by rewrite dom_fmap_L, map_size_fmap.
Qed.

End CreateLink_posts.

Lemma CreateLink_form_sparse_witness :
  resty.FormData (CreateLink_sent noop_tracer zaya background "tok" only_url_link)
  = {[ "url" := ["https://example.com/a/long/path"] ]}
  ∧ dom (resty.FormData
           (CreateLink_sent noop_tracer zaya background "tok" all_fields_link))
    = list_to_set form_fields
  ∧ ∃ v : string,
      resty.FormData
        (CreateLink_sent noop_tracer zaya background "tok" all_fields_link)
      !! "expiration_clicks" = Some [v]
      ∧ decimal v = Some 1000.
Proof.
  destruct (CreateLink_form_sparse noop_tracer zaya background "tok" only_url_link)
    as (_ & _ & _ & _ & _ & _ & _ & _ & _ & _ & _ & _ & _ & _ & Honly & _).
  destruct (CreateLink_form_sparse noop_tracer zaya background "tok" all_fields_link)
    as (_ & _ & _ & _ & _ & _ & _ & _ & _ & _ & Hclicks & _ & _ & _ & _ & Hall).
  split; [apply Honly; by repeat split|].
  split; [apply Hall; by repeat split|].
  exact Hclicks.
Defined.

(** * Construction: NewClient *)

Lemma IndexByte_separator (a : ascii) :
  Go_strings.IndexByte "/" a = true ↔ a = "/"%char.
Proof.
  change (Go_strings.IndexByte "/" a) with (if Ascii.eqb "/" a then true else false).
  destruct (Ascii.eqb_spec "/"%char a); split; intros; congruence.
Qed.

Lemma trimRight_loop_separators (rs : list ascii) :
  ∃ n : nat, rs = (replicate n "/"%char ++ Go_strings.trimRight_loop "/" rs)%list.
Proof.
  induction rs as [|a rs [n IH]]; [by exists 0%nat|].
  cbn [Go_strings.trimRight_loop].
  destruct (Go_strings.IndexByte "/" a) eqn:Ha; [|by exists 0%nat].
  apply IndexByte_separator in Ha as ->.
  exists (S n). simpl. by rewrite <- IH.
Qed.

Lemma trimRight_loop_head (cutset : string) (rs : list ascii) :
  match Go_strings.trimRight_loop cutset rs with
  | [] => True
  | a :: _ => Go_strings.IndexByte cutset a = false
  end.
Proof.
  induction rs as [|a rs IH]; [done|].
  cbn [Go_strings.trimRight_loop].
  by destruct (Go_strings.IndexByte cutset a) eqn:Ha.
Qed.

Lemma string_of_list_ascii_app (l1 l2 : list ascii) :
  string_of_list_ascii (l1 ++ l2)%list
  = string_of_list_ascii l1 +:+ string_of_list_ascii l2.
Proof.
  induction l1 as [|a l1 IH]; [done|].
  simpl. rewrite IH. reflexivity.
Qed.

Lemma string_of_separators (n : nat) :
  string_of_list_ascii (replicate n "/"%char) = Go_strings.Repeat "/" n.
Proof.
  induction n as [|n IH]; [done|].
  simpl. rewrite IH. reflexivity.
Qed.

Lemma replicate_snoc {A : Type} (x : A) (n : nat) :
  (replicate n x ++ [x])%list = x :: replicate n x.
Proof. induction n as [|n IH]; simpl; congruence. Qed.

Lemma rev_replicate {A : Type} (x : A) (n : nat) :
  rev (replicate n x) = replicate n x.
Proof.
  induction n as [|n IH]; [done|].
  simpl. rewrite IH. apply replicate_snoc.
Qed.

(** [TrimRight] removes separators from the end, and only separators. *)
Lemma TrimRight_separators (s : string) :
  ∃ n : nat, s = Go_strings.TrimRight s "/" +:+ Go_strings.Repeat "/" n.
Proof.
  unfold Go_strings.TrimRight.
  destruct (trimRight_loop_separators (rev (list_ascii_of_string s))) as [n Hn].
  exists n.
  remember (Go_strings.trimRight_loop "/" (rev (list_ascii_of_string s))) as t.
  apply (f_equal (@rev ascii)) in Hn.
  rewrite rev_involutive, rev_app_distr, rev_replicate in Hn.
  rewrite <- string_of_separators, <- string_of_list_ascii_app, <- Hn.
  by rewrite string_of_list_ascii_of_string.
Qed.

Lemma HasSuffix_separator_inv (s : string) :
  Go_strings.HasSuffix s "/" = true →
  ∃ p : list ascii, list_ascii_of_string s = (p ++ ["/"%char])%list.
Proof.
  unfold Go_strings.HasSuffix.
  induction s as [|a s IH]; [done|].
  intros Hs. apply andb_true_iff in Hs as [_ Hs].
  change (String.length (String a s)) with (S (String.length s)) in Hs.
  change (String.length "/") with 1%nat in *.
  replace (S (String.length s) - 1)%nat with (String.length s) in Hs by lia.
  destruct s as [|b s].
  - simpl in Hs. destruct (Ascii.eqb_spec a "/"%char) as [->|]; [|discriminate].
    by exists [].
  - change (String.length (String b s)) with (S (String.length s)) in *.
    simpl in Hs.
    destruct IH as [p Hp].
    + apply andb_true_iff. split; [done|].
      replace (S (String.length s) - 1)%nat with (String.length s) by lia.
      exact Hs.
    + exists (a :: p). simpl in *. by rewrite Hp.
Qed.

(** What [TrimRight] leaves does not end with a separator. *)
Lemma TrimRight_no_trailing_separator (s : string) :
  Go_strings.HasSuffix (Go_strings.TrimRight s "/") "/" = false.
Proof.
  destruct (Go_strings.HasSuffix _ _) eqn:Hs; [|done]. exfalso.
  apply HasSuffix_separator_inv in Hs as [p Hp].
  unfold Go_strings.TrimRight in Hp.
  rewrite list_ascii_of_string_of_list_ascii in Hp.
  apply (f_equal (@rev ascii)) in Hp.
  rewrite rev_involutive, rev_app_distr in Hp. simpl in Hp.
  pose proof (trimRight_loop_head "/" (rev (list_ascii_of_string s))) as Hhead.
  rewrite Hp in Hhead. simpl in Hhead. discriminate.
Qed.

Lemma NewClient_defaults (basePath_ : string) (σ : store) :
  NewClient basePath_ [] σ
  = ({| basePath := Go_strings.TrimRight basePath_ "/";
        restyClient := fresh (dom σ);
        Config := {| CreateLinkEndpoint := "api/v1/links";
                     GetLinkEndpoint := "api/v1/links" |} |},
     <[fresh (dom σ) := resty.New]> σ).
Proof. reflexivity. Qed.

Lemma NewClient_options (basePath_ : string) (options : list Option_) (σ : store) :
  NewClient basePath_ options σ
  = foldl (λ (s : GoZaya * store) (option : Option_), option s.1 s.2)
      (NewClient basePath_ [] σ) options.
Proof. reflexivity. Qed.

(** A property of the client that every option preserves holds after the
    options when it holds before them. *)
Lemma options_preserve (P : GoZaya → Prop) (options : list Option_)
    (s : GoZaya * store) :
  Forall (λ option : Option_, ∀ c σ, P c → P (option c σ).1) options →
  P s.1 →
  P (foldl (λ (s : GoZaya * store) (option : Option_), option s.1 s.2) s options).1.
Proof.
  intros Hoptions. revert s.
  induction Hoptions as [|option options Hoption _ IH]; intros s Hs; [done|].
  simpl. apply IH, Hoption, Hs.
Qed.

Lemma NewClient_keeps_basePath (basePath_ : string) (options : list Option_)
    (σ : store) :
  Forall keeps_basePath options →
  basePath (NewClient basePath_ options σ).1 = Go_strings.TrimRight basePath_ "/".
Proof.
  intros Hkeep. rewrite NewClient_options.
  apply (options_preserve (λ c, basePath c = Go_strings.TrimRight basePath_ "/"));
    [|reflexivity].
  eapply Forall_impl; [exact Hkeep|].
  intros option Hoption c σ' <-. apply Hoption.
Qed.

Lemma NewClient_keeps_stripped (basePath_ : string) (options : list Option_)
    (σ : store) :
  Forall keeps_stripped options →
  Go_strings.HasSuffix (basePath (NewClient basePath_ options σ).1) "/" = false.
Proof.
  intros Hkeep. rewrite NewClient_options.
  apply (options_preserve (λ c, Go_strings.HasSuffix (basePath c) "/" = false));
    [exact Hkeep | apply TrimRight_no_trailing_separator].
Qed.

(** C5: [NewClient] strips every trailing separator from the base path, so
    that the stored base path does not end with the separator, sets the
    create-link and the get-link endpoint to [api/v1/links], and then applies
    the options in their order, each to the client the ones before it left.
    Options that leave the base path alone (the field is not exported) leave
    it as stripped, and options that keep a base path without a trailing
    separator leave one without. *)
Theorem NewClient_normalizes (basePath_ : string) (options : list Option_)
    (σ : store) :
  (∃ n : nat, basePath_ = Go_strings.TrimRight basePath_ "/" +:+ Go_strings.Repeat "/" n)
  ∧ Go_strings.HasSuffix (Go_strings.TrimRight basePath_ "/") "/" = false
  ∧ NewClient basePath_ [] σ
    = ({| basePath := Go_strings.TrimRight basePath_ "/";
          restyClient := fresh (dom σ);
          Config := {| CreateLinkEndpoint := "api/v1/links";
                       GetLinkEndpoint := "api/v1/links" |} |},
       <[fresh (dom σ) := resty.New]> σ)
  ∧ σ !! fresh (dom σ) = None
  ∧ NewClient basePath_ options σ
    = foldl (λ (s : GoZaya * store) (option : Option_), option s.1 s.2)
        (NewClient basePath_ [] σ) options
  ∧ (∀ option : Option_,
       NewClient basePath_ (options ++ [option])%list σ
       = option (NewClient basePath_ options σ).1 (NewClient basePath_ options σ).2)
  ∧ (Forall keeps_basePath options →
       basePath (NewClient basePath_ options σ).1 = Go_strings.TrimRight basePath_ "/")
  ∧ (Forall keeps_stripped options →
       Go_strings.HasSuffix (basePath (NewClient basePath_ options σ).1) "/" = false).
Proof.
  split; [apply TrimRight_separators|].
  split; [apply TrimRight_no_trailing_separator|].
  split; [apply NewClient_defaults|].
  split; [apply not_elem_of_dom, is_fresh|].
  split; [apply NewClient_options|].
  split; [|split].
  - intros option. unfold NewClient. cbv zeta. by rewrite foldl_snoc.
  - apply NewClient_keeps_basePath.
  - apply NewClient_keeps_stripped.
Qed.

Lemma NewClient_normalizes_witness :
  basePath (NewClient "https://zaya.io/"
              [with_get_endpoint "api/v2/links"; with_create_endpoint "api/v2/shorten"]
              ∅).1
  = "https://zaya.io"
  ∧ Config (NewClient "https://zaya.io/"
              [with_get_endpoint "api/v2/links"; with_create_endpoint "api/v2/shorten"]
              ∅).1
    = {| CreateLinkEndpoint := "api/v2/shorten"; GetLinkEndpoint := "api/v2/links" |}.
Proof.
  split; [|reflexivity].
  destruct (NewClient_normalizes "https://zaya.io/"
              [with_get_endpoint "api/v2/links"; with_create_endpoint "api/v2/shorten"] ∅)
    as (_ & _ & _ & _ & _ & _ & Hbase & _).
  rewrite Hbase; [reflexivity|].
  repeat constructor.
Defined.

(** * Replacing the transport handle: SetRestyClient *)

(** On a handle that points to no client the call panics. *)
Lemma SetRestyClient_nil (g : GoZaya) (restyClient_ : resty.ClientPtr) (σ : store) :
  σ !! restyClient_ = None → SetRestyClient g restyClient_ σ = None.
Proof. intros Hnil. unfold SetRestyClient. simpl. by rewrite Hnil. Qed.

(** C6: after [SetRestyClient] the transport handle of the client is the
    supplied one, and the timeout of the client it points to is 30 seconds,
    whatever it was before; nothing else changes, in the handle's client or
    in the store. *)
Theorem SetRestyClient_forces_timeout (g : GoZaya) (restyClient_ : resty.ClientPtr)
    (σ : store) (c : resty.Client.t) :
  σ !! restyClient_ = Some c →
  ∃ (g' : GoZaya) (σ' : store),
    SetRestyClient g restyClient_ σ = Some (g', σ')
    ∧ RestyClient g' = restyClient_
    ∧ resty.Client.Timeout <$> σ' !! RestyClient g' = Some 30000000000
    ∧ σ' !! restyClient_ = Some (resty.SetTimeout c (30 * time.Second))
    ∧ (∀ p, p ≠ restyClient_ → σ' !! p = σ !! p)
    ∧ basePath g' = basePath g
    ∧ Config g' = Config g.
Proof.
  intros Hc. unfold SetRestyClient. simpl. rewrite Hc. simpl.
  eexists _, _. split; [reflexivity|]. simpl. unfold RestyClient. simpl.
  rewrite lookup_insert_eq.
  repeat split; intros; by rewrite ?lookup_insert_ne.
Qed.

Lemma SetRestyClient_forces_timeout_witness :
  resty.Client.Timeout <$> one_client_store !! 7%positive = Some 5000000000
  ∧ ∃ (g' : GoZaya) (σ' : store),
      SetRestyClient zaya 7%positive one_client_store = Some (g', σ')
      ∧ RestyClient g' = 7%positive
      ∧ resty.Client.Timeout <$> σ' !! RestyClient g' = Some 30000000000.
Proof.
  split; [reflexivity|].
  destruct (SetRestyClient_forces_timeout zaya 7%positive one_client_store
              five_seconds_client eq_refl)
    as (g' & σ' & Hset & Hhandle & Htimeout & _).
  by exists g', σ'.
Defined.

(** * The operations: CreateLink and GetLink *)

Section operations.
Context `{Declarations}.
Variable GlobalTracer : opentracing.Tracer.

Lemma GetRequest_fields (g : GoZaya) (ctx : context.Context) :
  GetRequest GlobalTracer g ctx
  = {| resty.client := restyClient g;
       resty.ctx := Some ctx;
       resty.Error := resty.ptr_HTTPErrorResponse HTTPErrorResponse_zero;
       resty.Result := resty.nil;
       resty.Token := "";
       resty.AuthScheme := "";
       resty.Header := resty.Header (GetRequest GlobalTracer g ctx);
       resty.FormData := ∅;
       resty.Method := "";
       resty.URL := "" |}.
Proof.
  unfold GetRequest at 1. by rewrite injectTracingHeaders_Header_only.
Qed.

Lemma IsStringEmpty_Bearer_scheme (token : string) (req : resty.Request)
    (raw : http_Header) :
  resty.AuthScheme req = "" → resty.Token req = token →
  resty.IsStringEmpty token = false →
  resty.addCredentials resty.New req raw
  = Header_Set raw "Authorization" ("Bearer " +:+ token).
Proof.
  intros Hscheme Htoken Hblank. unfold resty.addCredentials.
  rewrite Hscheme, Htoken, Hblank. reflexivity.
Qed.

(** What [GetLink] hands to its client, for a client whose get-link endpoint
    is the default one. *)
Lemma GetLink_sent_target (g : GoZaya) (ctx : context.Context) (token id : string) :
  GetLinkEndpoint (Config g) = "api/v1/links" →
  resty.Method (GetLink_sent GlobalTracer g ctx token id) = "GET"
  ∧ resty.URL (GetLink_sent GlobalTracer g ctx token id)
    = basePath g +:+ "/api/v1/links/" +:+ id
  ∧ resty.Header (GetLink_sent GlobalTracer g ctx token id) !! "Cache-Control"
    = Some ["no-cache"]
  ∧ resty.Token (GetLink_sent GlobalTracer g ctx token id) = token
  ∧ resty.AuthScheme (GetLink_sent GlobalTracer g ctx token id) = "".
Proof.
  intros Hendpoint. split; [reflexivity|]. split; [|split; [|split; [reflexivity|]]].
  - unfold GetLink_sent, GetLink_url. simpl.
    by rewrite Hendpoint, !append_assoc.
  - unfold GetLink_sent, GetLink_request, GetRequestWithBearerAuthNoCache. simpl.
    unfold Header_Set. apply lookup_insert_eq.
  - unfold GetLink_sent, GetLink_request, GetRequestWithBearerAuthNoCache.
    rewrite GetRequest_fields. reflexivity.
Qed.

Lemma GetLink_round_trip
    (RoundTrip : resty.Request → option resty.Response * option error)
    (g : GoZaya) (ctx : context.Context) (token id : string) :
  GetLink GlobalTracer RoundTrip g ctx token id
  = match checkForError (RoundTrip (GetLink_sent GlobalTracer g ctx token id)).1
            (RoundTrip (GetLink_sent GlobalTracer g ctx token id)).2
            "failed to get link" with
    | Some err => (None, Some err)
    | None => (Some ResponseModel_zero, None)
    end.
Proof.
  unfold GetLink, resty.Get, resty.Execute.
  fold (GetLink_sent GlobalTracer g ctx token id).
  by destruct (RoundTrip (GetLink_sent GlobalTracer g ctx token id)) as [resp err].
Qed.

(** C7 (as amended): for every base path, id and token, [GetLink] on the
    client that [NewClient] builds for the base path hands its resty client a
    GET request whose URL is the stored base path, [/api/v1/links/] and the
    id.  The request carries the header [Cache-Control: no-cache] and the
    token as its auth token, with no scheme of its own.  The resty client,
    made by [resty.New], sends a token that is not blank as the header
    [Authorization: Bearer token], and adds no header for a blank token. *)
Theorem GetLink_request_target (basePath_ : string) (σ : store)
    (ctx : context.Context) (token id : string) :
  let g := (NewClient basePath_ [] σ).1 in
  let sent := GetLink_sent GlobalTracer g ctx token id in
  (∀ RoundTrip,
     GetLink GlobalTracer RoundTrip g ctx token id
     = match checkForError (RoundTrip sent).1 (RoundTrip sent).2 "failed to get link" with
       | Some err => (None, Some err)
       | None => (Some ResponseModel_zero, None)
       end)
  ∧ basePath g = Go_strings.TrimRight basePath_ "/"
  ∧ (NewClient basePath_ [] σ).2 !! restyClient g = Some resty.New
  ∧ resty.Method sent = "GET"
  ∧ resty.URL sent = basePath g +:+ "/api/v1/links/" +:+ id
  ∧ resty.Header sent !! "Cache-Control" = Some ["no-cache"]
  ∧ resty.Token sent = token
  ∧ resty.AuthScheme sent = ""
  ∧ (resty.IsStringEmpty token = false →
     ∀ raw : http_Header,
       resty.addCredentials resty.New sent raw !! "Authorization"
       = Some ["Bearer " +:+ token]
       ∧ resty.addCredentials resty.New sent raw !! "Cache-Control"
         = raw !! "Cache-Control")
  ∧ (resty.IsStringEmpty token = true →
     ∀ raw : http_Header, resty.addCredentials resty.New sent raw = raw).
Proof.
  intros g sent. subst sent.
  destruct (GetLink_sent_target g ctx token id eq_refl)
    as (Hmethod & Hurl & Hcache & Htoken & Hscheme).
  split; [intros; apply GetLink_round_trip|].
  split; [reflexivity|].
  split; [apply lookup_insert_eq|].
  do 5 (split; [assumption|]).
  split.
  - intros Hblank raw.
    rewrite (IsStringEmpty_Bearer_scheme token _ raw Hscheme Htoken Hblank).
    unfold Header_Set. by rewrite lookup_insert_eq, lookup_insert_ne.
  - intros Hblank raw. unfold resty.addCredentials.
    rewrite Htoken, Hblank. reflexivity.
Qed.

(** [checkForError] on the round trip of an operation, by the status of the
    response and the rest. *)
Lemma checkForError_below_400 (resp : resty.Response) (errMessage : string) :
  (resty.StatusCode resp <= 399)%Z →
  checkForError (Some resp) None errMessage = None.
Proof.
  intros Hcode. apply checkForError_no_error.
  unfold resty.IsError. apply Z.ltb_ge. lia.
Qed.

Lemma checkForError_reports (resp : option resty.Response) (err : option error)
    (errMessage : string) :
  is_Some err ∨ resp = None
  ∨ (∃ r, resp = Some r ∧ (399 < resty.StatusCode r)%Z) →
  is_Some (checkForError resp err errMessage).
Proof.
  intros [[e ->]|[->|(r & -> & Hcode)]].
  - by eexists.
  - destruct err; by eexists.
  - destruct err; [by eexists|]. apply checkForError_is_error.
    unfold resty.IsError. by apply Z.ltb_lt.
Qed.

(** C8 (as amended): every outcome of [CreateLink] and of [GetLink] is a
    result or an error, never both and never neither.  After a round trip
    that brought no transport error and a response with a status below 400,
    a 2xx status or a 1xx or 3xx one, the outcome is a result and a nil
    error; after a round trip with a transport error, no response, or a
    status of 400 or above, the outcome is a nil result and an error. *)
Theorem exactly_one_of_result_and_error
    (RoundTrip : resty.Request → option resty.Response * option error)
    (g : GoZaya) (ctx : context.Context) (token id : string)
    (link : GenerateLinkRequest) :
  exactly_one (CreateLink GlobalTracer RoundTrip g ctx token link)
  ∧ exactly_one (GetLink GlobalTracer RoundTrip g ctx token id)
  ∧ (∀ resp,
       RoundTrip (CreateLink_sent GlobalTracer g ctx token link) = (Some resp, None) →
       (200 <= resty.StatusCode resp <= 299)%Z →
       CreateLink GlobalTracer RoundTrip g ctx token link
       = (Some ResponseModel_zero, None)
       ∧ checkForError (Some resp) None "failed to create link" = None)
  ∧ (∀ resp,
       RoundTrip (GetLink_sent GlobalTracer g ctx token id) = (Some resp, None) →
       (200 <= resty.StatusCode resp <= 299)%Z →
       GetLink GlobalTracer RoundTrip g ctx token id
       = (Some ResponseModel_zero, None)
       ∧ checkForError (Some resp) None "failed to get link" = None)
  ∧ (∀ resp,
       RoundTrip (CreateLink_sent GlobalTracer g ctx token link) = (Some resp, None) →
       (resty.StatusCode resp <= 399)%Z →
       CreateLink GlobalTracer RoundTrip g ctx token link
       = (Some ResponseModel_zero, None))
  ∧ (∀ resp,
       RoundTrip (GetLink_sent GlobalTracer g ctx token id) = (Some resp, None) →
       (resty.StatusCode resp <= 399)%Z →
       GetLink GlobalTracer RoundTrip g ctx token id
       = (Some ResponseModel_zero, None))
  ∧ (∀ resp err,
       RoundTrip (CreateLink_sent GlobalTracer g ctx token link) = (resp, err) →
       is_Some err ∨ resp = None
       ∨ (∃ r, resp = Some r ∧ (399 < resty.StatusCode r)%Z) →
       (CreateLink GlobalTracer RoundTrip g ctx token link).1 = None
       ∧ is_Some (CreateLink GlobalTracer RoundTrip g ctx token link).2)
  ∧ (∀ resp err,
       RoundTrip (GetLink_sent GlobalTracer g ctx token id) = (resp, err) →
       is_Some err ∨ resp = None
       ∨ (∃ r, resp = Some r ∧ (399 < resty.StatusCode r)%Z) →
       (GetLink GlobalTracer RoundTrip g ctx token id).1 = None
       ∧ is_Some (GetLink GlobalTracer RoundTrip g ctx token id).2).
Proof.
  unfold CreateLink, GetLink, resty.Post, resty.Get, resty.Execute.
  fold (CreateLink_sent GlobalTracer g ctx token link).
  fold (GetLink_sent GlobalTracer g ctx token id).
  destruct (RoundTrip (CreateLink_sent GlobalTracer g ctx token link)) as [cresp cerr].
  destruct (RoundTrip (GetLink_sent GlobalTracer g ctx token id)) as [gresp gerr].
  assert (Hone : ∀ resp err msg,
            exactly_one match checkForError resp err msg with
                        | Some e => (None, Some e)
                        | None => (Some ResponseModel_zero, None)
                        end).
  { intros resp err msg. unfold exactly_one.
    destruct (checkForError resp err msg); simpl; [right | left]; eauto. }
  split; [apply Hone|]. split; [apply Hone|].
  split; [|split; [|split; [|split; [|split]]]].
  - intros resp [= -> ->] Hok.
    by rewrite (checkForError_below_400 resp _ ltac:(lia)).
  - intros resp [= -> ->] Hok.
    by rewrite (checkForError_below_400 resp _ ltac:(lia)).
  - intros resp [= -> ->] Hok. by rewrite (checkForError_below_400 resp _ Hok).
  - intros resp [= -> ->] Hok. by rewrite (checkForError_below_400 resp _ Hok).
  - intros resp err [= -> ->] Hf.
    destruct (checkForError_reports _ _ "failed to create link" Hf) as [e ->]. eauto.
  - intros resp err [= -> ->] Hf.
    destruct (checkForError_reports _ _ "failed to get link" Hf) as [e ->]. eauto.
Qed.

(** C9: neither operation registers a target for the response body, and the
    result of a call that returns no error is the zero value of
    [ResponseModel], whatever the round trip brought. *)
Theorem result_is_zero_value
    (RoundTrip : resty.Request → option resty.Response * option error)
    (g : GoZaya) (ctx : context.Context) (token id : string)
    (link : GenerateLinkRequest) :
  resty.Result (CreateLink_sent GlobalTracer g ctx token link) = resty.nil
  ∧ resty.Result (GetLink_sent GlobalTracer g ctx token id) = resty.nil
  ∧ ((CreateLink GlobalTracer RoundTrip g ctx token link).2 = None →
       (CreateLink GlobalTracer RoundTrip g ctx token link).1
       = Some ResponseModel_zero)
  ∧ ((GetLink GlobalTracer RoundTrip g ctx token id).2 = None →
       (GetLink GlobalTracer RoundTrip g ctx token id).1
       = Some ResponseModel_zero)
  ∧ (∀ m, (CreateLink GlobalTracer RoundTrip g ctx token link).1 = Some m →
       m = ResponseModel_zero)
  ∧ (∀ m, (GetLink GlobalTracer RoundTrip g ctx token id).1 = Some m →
       m = ResponseModel_zero).
Proof.
  split; [|split].
  - unfold CreateLink_sent, CreateLink_request, GetRequestFormData.
    rewrite GetRequest_fields. reflexivity.
  - unfold GetLink_sent, GetLink_request, GetRequestWithBearerAuthNoCache.
    rewrite GetRequest_fields. reflexivity.
  - unfold CreateLink, GetLink, resty.Post, resty.Get, resty.Execute.
    destruct (RoundTrip _) as [cresp cerr]. destruct (RoundTrip _) as [gresp gerr].
    destruct (checkForError cresp cerr _), (checkForError gresp gerr _); simpl;
      repeat split; intros; congruence.
Qed.

End operations.

Lemma GetLink_request_target_witness :
  resty.URL (GetLink_sent noop_tracer zaya background "tok" "abc123")
  = "https://zaya.io/api/v1/links/abc123"
  ∧ resty.Header (GetLink_sent noop_tracer zaya background "tok" "abc123")
    !! "Cache-Control" = Some ["no-cache"]
  ∧ resty.addCredentials resty.New
      (GetLink_sent noop_tracer zaya background "tok" "abc123") ∅
    !! "Authorization" = Some ["Bearer tok"].
Proof.
  destruct (GetLink_request_target noop_tracer "https://zaya.io/" ∅ background
              "tok" "abc123")
    as (_ & _ & _ & _ & Hurl & Hcache & _ & _ & Hauth & _).
  split; [exact Hurl|]. split; [exact Hcache|]. apply (Hauth eq_refl).
Defined.

(** With the empty token the request that [GetLink] hands to a client made
    by [resty.New] leaves it without an [Authorization] header: the claim C7
    as stated fails there. *)
Lemma GetLink_blank_token_counterexample :
  resty.Token (GetLink_sent noop_tracer zaya background "" "abc123") = ""
  ∧ resty.addCredentials resty.New
      (GetLink_sent noop_tracer zaya background "" "abc123")
      (resty.Header (GetLink_sent noop_tracer zaya background "" "abc123"))
    !! "Authorization" = None.
Proof. split; reflexivity. Qed.

Lemma exactly_one_of_result_and_error_witness :
  CreateLink noop_tracer (answers (Some ok_response) None) zaya background "tok"
    all_fields_link
  = (Some "", None)
  ∧ (GetLink noop_tracer (answers None (Some "connection refused")) zaya background
       "tok" "abc123").1 = None
  ∧ is_Some (GetLink noop_tracer (answers None (Some "connection refused")) zaya
               background "tok" "abc123").2.
Proof.
  destruct (exactly_one_of_result_and_error noop_tracer
              (answers (Some ok_response) None)
              zaya background "tok" "abc123" all_fields_link)
    as (_ & _ & Hok & _).
  destruct (exactly_one_of_result_and_error noop_tracer
              (answers None (Some "connection refused"))
              zaya background "tok" "abc123" all_fields_link)
    as (_ & _ & _ & _ & _ & _ & _ & Hfail).
  split; [apply (Hok ok_response eq_refl); split; by vm_compute|].
  apply (Hfail None (Some "connection refused") eq_refl). left. by eexists.
Defined.

(** A round trip that brings a 304 response and no transport error is a
    failed round trip in the words of the specification, and [GetLink]
    returns a result and a nil error for it, as [CreateLink] does: the claim
    C8 as stated fails there. *)
Lemma operations_non_2xx_counterexample :
  failure (answers (Some not_modified) None
             (GetLink_sent noop_tracer zaya background "tok" "abc123"))
  ∧ GetLink noop_tracer (answers (Some not_modified) None) zaya background
      "tok" "abc123" = (Some "", None)
  ∧ CreateLink noop_tracer (answers (Some not_modified) None) zaya background
      "tok" only_url_link = (Some "", None).
Proof.
  split; [|split; reflexivity].
  right. right. exists not_modified. split; [reflexivity|].
  intros [Hlo Hhi]. by vm_compute in Hhi.
Qed.

Lemma result_is_zero_value_witness :
  (GetLink noop_tracer (answers (Some ok_response) None) zaya background "tok" "abc123").1
  = Some "".
Proof.
  apply (result_is_zero_value noop_tracer (answers (Some ok_response) None) zaya
           background "tok" "abc123" only_url_link).
  reflexivity.
Defined.

(** * More on strings *)

Lemma list_ascii_of_string_append (a b : string) :
  list_ascii_of_string (a +:+ b)
  = (list_ascii_of_string a ++ list_ascii_of_string b)%list.
Proof.
  induction a as [|x a IH]; [done|].
  change (x :: list_ascii_of_string (a +:+ b)
          = x :: (list_ascii_of_string a ++ list_ascii_of_string b)%list).
  by rewrite IH.
Qed.

Lemma list_ascii_of_string_inj (a b : string) :
  list_ascii_of_string a = list_ascii_of_string b → a = b.
Proof.
  intros Heq. rewrite <- (string_of_list_ascii_of_string a),
    <- (string_of_list_ascii_of_string b). by rewrite Heq.
Qed.

Lemma append_cancel_r (a b c : string) : a +:+ c = b +:+ c → a = b.
Proof.
  intros Heq. apply list_ascii_of_string_inj.
  apply (f_equal list_ascii_of_string) in Heq.
  rewrite !list_ascii_of_string_append in Heq.
  by apply app_inv_tail in Heq.
Qed.

Lemma append_cancel_l (a b c : string) : c +:+ a = c +:+ b → a = b.
Proof.
  induction c as [|x c IH]; [done|].
  change (String x (c +:+ a) = String x (c +:+ b) → a = b).
  intros [= Heq]. by apply IH.
Qed.

(** * Further properties of checkForError *)

Section checkForError_further.
Context `{Declarations}.

(** X1: [checkForError] reports no error exactly when the transport error is
    nil and the response is present with a status code of at most 399. *)
Theorem checkForError_nil_iff (resp : option resty.Response) (err : option error)
    (errMessage : string) :
  checkForError resp err errMessage = None
  ↔ err = None ∧ ∃ r, resp = Some r ∧ (resty.StatusCode r <= 399)%Z.
Proof.
  split.
  - destruct err as [e|]; [discriminate|].
    destruct resp as [r|]; [|discriminate].
    unfold checkForError, resty.IsError.
    destruct (Z.ltb_spec 399 (resty.StatusCode r)); [discriminate|].
    intros _. split; [done|]. by exists r.
  - intros [-> (r & -> & Hcode)]. apply checkForError_no_error.
    unfold resty.IsError. apply Z.ltb_ge. lia.
Qed.

(** X2: the [Code] of an [APIError] that [checkForError] returns is 0 or an
    error status above 399; when it is not 0 the transport error was nil and
    it is the status code of the response. *)
Theorem checkForError_Code (resp : option resty.Response) (err : option error)
    (errMessage : string) (apiErr : APIError) :
  checkForError resp err errMessage = Some apiErr →
  (Code apiErr = 0 ∨ 399 < Code apiErr)%Z
  ∧ (Code apiErr ≠ 0 →
     err = None ∧ ∃ r, resp = Some r ∧ resty.StatusCode r = Code apiErr).
Proof.
  destruct err as [e|]; [intros [= <-]; simpl; split; [by left | done]|].
  destruct resp as [r|]; [|intros [= <-]; simpl; split; [by left | done]].
  unfold checkForError, resty.IsError.
  destruct (Z.ltb_spec 399 (resty.StatusCode r)) as [Hcode|]; [|discriminate].
  intros [= <-]. simpl. split; [by right|]. intros _. split; [done|]. by exists r.
Qed.

(** X3: the [Type] of an [APIError] that [checkForError] returns is the
    classification of the transport error it was given, in every branch: an
    empty response and an error status are classified as the nil error is. *)
Theorem checkForError_Type (resp : option resty.Response) (err : option error)
    (errMessage : string) (apiErr : APIError) :
  checkForError resp err errMessage = Some apiErr →
  Type_ apiErr = ParseAPIErrType err
  ∧ (err = None → Type_ apiErr = ParseAPIErrType None).
Proof.
  intros Hret.
  assert (Htype : Type_ apiErr = ParseAPIErrType err).
  { destruct err as [e|]; [by injection Hret as <-|].
    destruct resp as [r|]; [|by injection Hret as <-].
    unfold checkForError in Hret.
    destruct (resty.IsError r); [by injection Hret as <-|discriminate]. }
  split; [done|]. by intros <-.
Qed.

(** X4: for a response with an error status and a nil transport error the
    [Message] starts with the status line.  A structured error body that is
    not empty is the detail whatever the raw body is; without one, a raw body
    that is not nil is the detail, also when it is empty; the status line
    stands alone only when the raw body is nil. *)
Theorem checkForError_Message (resp : resty.Response) (errMessage : string) :
  (399 < resty.StatusCode resp)%Z →
  ∃ apiErr : APIError,
    checkForError (Some resp) None errMessage = Some apiErr
    ∧ Go_strings.HasPrefix (Message apiErr) (resty.Status resp) = true
    ∧ Message apiErr
      = match structured_body resp, resty.Body resp with
        | Some e, _ => resty.Status resp +:+ ": " +:+ HTTPErrorResponse_String e
        | None, Some body => resty.Status resp +:+ ": " +:+ body
        | None, None => resty.Status resp
        end.
Proof.
  intros Hcode. apply Z.ltb_lt in Hcode.
  unfold checkForError, resty.IsError, structured_body. rewrite Hcode.
  eexists. split; [reflexivity|]. simpl.
  assert (Hself : ∀ s : string, Go_strings.HasPrefix s s = true).
  { intros s. unfold Go_strings.HasPrefix. apply prefix_correct, substring_all. }
  destruct (resty.Response_Error resp) as [|e| |]; simpl;
    try (destruct (HTTPErrorResponse_NotEmpty e); simpl);
    destruct (resty.Body resp); simpl;
    (split; [first [apply prefix_append | apply Hself] | reflexivity]).
Qed.

(** X5: the context message plays a part only when there is a transport
    error: with a nil transport error [checkForError] returns the same for
    every context message. *)
Theorem checkForError_context_message (resp : option resty.Response)
    (errMessage errMessage' : string) :
  checkForError resp None errMessage = checkForError resp None errMessage'
  ∧ (∀ e : error,
       errMessage ≠ errMessage' →
       checkForError resp (Some e) errMessage
       ≠ checkForError resp (Some e) errMessage').
Proof.
  split; [by destruct resp|].
  intros e Hne. simpl. intros [= Heq]. apply Hne.
  unfold errors.withStack_Error, errors.withMessage_Error in Heq. simpl in Heq.
  by apply (append_cancel_r _ _ _ Heq).
Qed.

End checkForError_further.

(** * Joining path segments: makeURL *)

Lemma concat_app (sep : string) (p q : list string) :
  p ≠ [] → q ≠ [] →
  String.concat sep (p ++ q)%list
  = String.concat sep p +:+ sep +:+ String.concat sep q.
Proof.
  intros Hp Hq. induction p as [|x p IH]; [done|].
  destruct p as [|y p].
  - destruct q; [done | reflexivity].
  - change (x +:+ sep +:+ String.concat sep ((y :: p) ++ q)%list
            = (x +:+ sep +:+ String.concat sep (y :: p)) +:+ sep +:+ String.concat sep q).
    rewrite IH by done. by rewrite !append_assoc.
Qed.

(** X6: [makeURL] of no segment is the empty string and of one segment is
    the segment; joining two non-empty lists of segments is joining each and
    putting one separator between them.  An empty segment is not skipped: it
    still gets its separator. *)
Theorem makeURL_joins (p q : list string) :
  makeURL [] = ""
  ∧ (∀ s : string, makeURL [s] = s)
  ∧ (p ≠ [] → q ≠ [] → makeURL (p ++ q)%list = makeURL p +:+ "/" +:+ makeURL q)
  ∧ (p ≠ [] → makeURL (p ++ [""])%list = makeURL p +:+ "/").
Proof.
  split; [reflexivity|]. split; [reflexivity|]. split.
  - apply concat_app.
  - intros Hp. unfold makeURL, Go_strings.Join. by rewrite concat_app.
Qed.

Lemma makeURL_joins_witness :
  makeURL ["api"; "v1"; "links"; "abc123"] = "api/v1/links" +:+ "/" +:+ "abc123"
  ∧ makeURL ["api"; "v1"; ""] = "api/v1/".
Proof.
  split.
  - by apply (makeURL_joins ["api"; "v1"; "links"] ["abc123"]).
  - by apply (makeURL_joins ["api"; "v1"] []).
Defined.

(** * The request builders *)

Section builders.
Context `{Declarations}.
Variable GlobalTracer : opentracing.Tracer.

(** X7: the base request of [GetRequest] belongs to the resty client of the
    client, is bound to the context, has a zero [HTTPErrorResponse] as its
    error target and no result target, no token and no form.  Its header is
    empty when the context has no span; with a span it is what the tracer
    wrote into an empty carrier. *)
Theorem GetRequest_base (g : GoZaya) (ctx : context.Context) :
  resty.client (GetRequest GlobalTracer g ctx) = RestyClient g
  ∧ resty.ctx (GetRequest GlobalTracer g ctx) = Some ctx
  ∧ resty.Error (GetRequest GlobalTracer g ctx)
    = resty.ptr_HTTPErrorResponse HTTPErrorResponse_zero
  ∧ resty.Result (GetRequest GlobalTracer g ctx) = resty.nil
  ∧ resty.Token (GetRequest GlobalTracer g ctx) = ""
  ∧ resty.FormData (GetRequest GlobalTracer g ctx) = ∅
  ∧ resty.Header (GetRequest GlobalTracer g ctx)
    = match context.SpanFromContext ctx with
      | None => ∅
      | Some span =>
          (opentracing.Inject (tracer_of GlobalTracer ctx) (Span_Context span)
             opentracing.HTTPHeaders ∅).1
      end.
Proof.
  rewrite (GetRequest_fields GlobalTracer g ctx) at 1 2 3 4 5 6.
  do 6 (split; [reflexivity|]).
  unfold GetRequest, injectTracingHeaders, tracer_of. simpl.
  destruct (context.SpanFromContext ctx) as [span|]; [|reflexivity].
  destruct (context.Value_tracerContextKey ctx) as [|t|];
    match goal with |- context [opentracing.Inject ?t ?sc ?f ?h] =>
      destruct (opentracing.Inject t sc f h) as [header [e|]] end; reflexivity.
Qed.

(** X8: each builder sets the token and its content type, JSON for the two
    bearer builders and form-urlencoded for the form builder, over whatever
    the tracer wrote under that key; the no-cache builder also sets
    [Cache-Control: no-cache].  Every other header that the tracer wrote
    into the base request is in the built request as the tracer wrote it. *)
Theorem builders_headers (g : GoZaya) (ctx : context.Context) (token key : string) :
  resty.Token (GetRequestWithBearerAuth GlobalTracer g ctx token) = token
  ∧ resty.Token (GetRequestWithBearerAuthNoCache GlobalTracer g ctx token) = token
  ∧ resty.Token (GetRequestFormData GlobalTracer g ctx token) = token
  ∧ resty.Header (GetRequestWithBearerAuth GlobalTracer g ctx token) !! "Content-Type"
    = Some ["application/json"]
  ∧ resty.Header (GetRequestWithBearerAuthNoCache GlobalTracer g ctx token)
    !! "Content-Type" = Some ["application/json"]
  ∧ resty.Header (GetRequestWithBearerAuthNoCache GlobalTracer g ctx token)
    !! "Cache-Control" = Some ["no-cache"]
  ∧ resty.Header (GetRequestFormData GlobalTracer g ctx token) !! "Content-Type"
    = Some ["application/x-www-form-urlencoded"]
  ∧ (key ≠ "Content-Type" →
     resty.Header (GetRequestWithBearerAuth GlobalTracer g ctx token) !! key
     = resty.Header (GetRequest GlobalTracer g ctx) !! key
     ∧ resty.Header (GetRequestFormData GlobalTracer g ctx token) !! key
       = resty.Header (GetRequest GlobalTracer g ctx) !! key
     ∧ (key ≠ "Cache-Control" →
        resty.Header (GetRequestWithBearerAuthNoCache GlobalTracer g ctx token) !! key
        = resty.Header (GetRequest GlobalTracer g ctx) !! key)).
Proof.
  unfold GetRequestWithBearerAuth, GetRequestWithBearerAuthNoCache,
    GetRequestFormData, resty.SetHeader, Header_Set. simpl.
  do 3 (split; [reflexivity|]).
  split; [apply lookup_insert_eq|].
  split; [by rewrite lookup_insert_ne, lookup_insert_eq|].
  split; [apply lookup_insert_eq|].
  split; [apply lookup_insert_eq|].
  intros Hkey. split; [by rewrite lookup_insert_ne|].
  split; [by rewrite lookup_insert_ne|].
  intros Hcache. by rewrite !lookup_insert_ne.
Qed.

(** X9: [CreateLink] hands its client a POST request whose URL is the stored
    base path, a separator and the create-link endpoint of the client,
    [/api/v1/links] after the base path for a client built without options.
    The request is a form request with the token, and [CreateLink] sets no
    [Cache-Control] header. *)
Theorem CreateLink_request_target (basePath_ : string) (σ : store) (g : GoZaya)
    (ctx : context.Context) (token : string) (link : GenerateLinkRequest) :
  (∀ RoundTrip,
     CreateLink GlobalTracer RoundTrip g ctx token link
     = match checkForError (RoundTrip (CreateLink_sent GlobalTracer g ctx token link)).1
               (RoundTrip (CreateLink_sent GlobalTracer g ctx token link)).2
               "failed to create link" with
       | Some err => (None, Some err)
       | None => (Some ResponseModel_zero, None)
       end)
  ∧ resty.Method (CreateLink_sent GlobalTracer g ctx token link) = "POST"
  ∧ resty.URL (CreateLink_sent GlobalTracer g ctx token link)
    = basePath g +:+ "/" +:+ CreateLinkEndpoint (Config g)
  ∧ resty.URL (CreateLink_sent GlobalTracer (NewClient basePath_ [] σ).1 ctx token link)
    = Go_strings.TrimRight basePath_ "/" +:+ "/api/v1/links"
  ∧ resty.Header (CreateLink_sent GlobalTracer g ctx token link) !! "Content-Type"
    = Some ["application/x-www-form-urlencoded"]
  ∧ resty.Header (CreateLink_sent GlobalTracer g ctx token link) !! "Cache-Control"
    = resty.Header (GetRequest GlobalTracer g ctx) !! "Cache-Control"
  ∧ resty.Token (CreateLink_sent GlobalTracer g ctx token link) = token.
Proof.
  split.
  { intros RoundTrip. unfold CreateLink, resty.Post, resty.Execute.
    fold (CreateLink_sent GlobalTracer g ctx token link).
    by destruct (RoundTrip (CreateLink_sent GlobalTracer g ctx token link)). }
  split; [reflexivity|].
  split; [unfold CreateLink_sent, CreateLink_url; simpl; apply append_assoc|].
  split; [unfold CreateLink_sent, CreateLink_url; simpl; apply append_assoc|].
  unfold CreateLink_sent, CreateLink_request, GetRequestFormData,
    resty.SetHeader, Header_Set. simpl.
  split; [apply lookup_insert_eq|].
  split; [by rewrite lookup_insert_ne | reflexivity].
Qed.

(** X10: when the transport reports an error, [CreateLink] returns no result
    and an [APIError] with [Code] 0 whose [Message] is [failed to create
    link], a colon and the text of the error, and [GetLink] one whose
    [Message] is [failed to get link], a colon and the text; when the
    transport brings neither a response nor an error, the [Message] of both
    is [empty response]. *)
Theorem operations_transport_error
    (RoundTrip : resty.Request → option resty.Response * option error)
    (g : GoZaya) (ctx : context.Context) (token id : string)
    (link : GenerateLinkRequest) :
  (∀ e, (RoundTrip (CreateLink_sent GlobalTracer g ctx token link)).2 = Some e →
     CreateLink GlobalTracer RoundTrip g ctx token link
     = (None, Some {| Code := 0;
                      Message := "failed to create link: " +:+ error_Error e;
                      Type_ := ParseAPIErrType (Some e) |}))
  ∧ (∀ e, (RoundTrip (GetLink_sent GlobalTracer g ctx token id)).2 = Some e →
     GetLink GlobalTracer RoundTrip g ctx token id
     = (None, Some {| Code := 0;
                      Message := "failed to get link: " +:+ error_Error e;
                      Type_ := ParseAPIErrType (Some e) |}))
  ∧ (RoundTrip (CreateLink_sent GlobalTracer g ctx token link) = (None, None) →
     CreateLink GlobalTracer RoundTrip g ctx token link
     = (None, Some {| Code := 0; Message := "empty response";
                      Type_ := ParseAPIErrType None |}))
  ∧ (RoundTrip (GetLink_sent GlobalTracer g ctx token id) = (None, None) →
     GetLink GlobalTracer RoundTrip g ctx token id
     = (None, Some {| Code := 0; Message := "empty response";
                      Type_ := ParseAPIErrType None |})).
Proof.
  unfold CreateLink, GetLink, resty.Post, resty.Get, resty.Execute.
  fold (CreateLink_sent GlobalTracer g ctx token link).
  fold (GetLink_sent GlobalTracer g ctx token id).
  destruct (RoundTrip (CreateLink_sent GlobalTracer g ctx token link)) as [cresp cerr].
  destruct (RoundTrip (GetLink_sent GlobalTracer g ctx token id)) as [gresp gerr].
  simpl. repeat split.
  - by intros e ->.
  - by intros e ->.
  - by intros [= -> ->].
  - by intros [= -> ->].
Qed.

End builders.

Lemma checkForError_Code_witness :
  Code <$> checkForError (H := sample) (Some unavailable) None "failed to get link"
  = Some 503
  ∧ (503 = 0 ∨ 399 < 503)%Z
  ∧ ∃ r, Some unavailable = Some r ∧ resty.StatusCode r = 503.
Proof.
  split; [reflexivity|].
  assert (Hnonzero : (503 ≠ 0)%Z) by done.
  destruct (checkForError_Code (H := sample) (Some unavailable) None
              "failed to get link" _ eq_refl) as [Hrange Hstatus].
  split; [exact Hrange|]. exact (proj2 (Hstatus Hnonzero)).
Defined.

Lemma checkForError_Type_witness :
  Type_ <$> checkForError (H := sample) None None "failed to get link" = Some Unknown.
Proof.
  destruct (checkForError_Type (H := sample) None None "failed to get link" _ eq_refl)
    as [Htype _].
  exact (f_equal Some Htype).
Defined.

Lemma checkForError_Message_witness :
  (399 < 503)%Z
  ∧ ∃ apiErr : APIError (H := sample),
      checkForError (Some unavailable) None "failed to get link" = Some apiErr
      ∧ Go_strings.HasPrefix (Message apiErr) "503 Service Unavailable" = true
      ∧ Message apiErr = "503 Service Unavailable".
Proof.
  split; [reflexivity|].
  exact (checkForError_Message unavailable "failed to get link" eq_refl).
Defined.

Lemma builders_headers_witness :
  resty.Header (GetRequest greedy_tracer zaya (traced greedy_tracer)) !! "Content-Type"
  = Some ["text/plain"]
  ∧ resty.Header (GetRequestFormData greedy_tracer zaya (traced greedy_tracer) "tok")
    !! "Content-Type" = Some ["application/x-www-form-urlencoded"]
  ∧ resty.Header (GetRequestFormData greedy_tracer zaya (traced greedy_tracer) "tok")
    !! "Trace-Id" = Some ["span-1"].
Proof.
  split; [reflexivity|]. split.
  - apply (builders_headers greedy_tracer zaya (traced greedy_tracer) "tok" "Trace-Id").
  - destruct (builders_headers greedy_tracer zaya (traced greedy_tracer) "tok" "Trace-Id")
      as (_ & _ & _ & _ & _ & _ & _ & Hother).
    destruct Hother as (_ & -> & _); [done | reflexivity].
Defined.

Lemma operations_transport_error_witness :
  CreateLink noop_tracer (answers None (Some "dial tcp: connection refused")) zaya
    background "tok" only_url_link
  = (None, Some (@Build_APIError sample 0
                   "failed to create link: dial tcp: connection refused" Unknown))
  ∧ (GetLink noop_tracer (answers None None) zaya background "tok" "abc123").2
    = Some (@Build_APIError sample 0 "empty response" Unknown).
Proof.
  destruct (operations_transport_error noop_tracer
              (answers None (Some "dial tcp: connection refused"))
              zaya background "tok" "abc123" only_url_link) as (Hcreate & _).
  destruct (operations_transport_error noop_tracer (answers None None)
              zaya background "tok" "abc123" only_url_link) as (_ & _ & _ & Hget).
  split; [exact (Hcreate _ eq_refl)|]. by rewrite (Hget eq_refl).
Defined.

(** * Transports *)

(** X11: [NewClient] gives the client a transport of its own: its handle
    pointed to nothing before, it points to a client as [resty.New] makes it
    (the timeout of 30 seconds comes with [SetRestyClient] only), every other
    handle points to what it did, and a client built next gets another
    handle. *)
Theorem NewClient_transport (basePath_ basePath' : string) (σ : store) :
  σ !! RestyClient (NewClient basePath_ [] σ).1 = None
  ∧ (NewClient basePath_ [] σ).2 !! RestyClient (NewClient basePath_ [] σ).1
    = Some resty.New
  ∧ (∀ p, p ≠ RestyClient (NewClient basePath_ [] σ).1 →
       (NewClient basePath_ [] σ).2 !! p = σ !! p)
  ∧ RestyClient (NewClient basePath' [] (NewClient basePath_ [] σ).2).1
    ≠ RestyClient (NewClient basePath_ [] σ).1.
Proof.
  rewrite !NewClient_defaults. unfold RestyClient. simpl.
  split; [apply not_elem_of_dom, is_fresh|].
  split; [apply lookup_insert_eq|].
  split; [intros p Hp; by rewrite lookup_insert_ne|].
  intros Heq.
  apply (is_fresh (dom (<[fresh (dom σ) := resty.New]> σ))).
  rewrite Heq. apply elem_of_dom. rewrite lookup_insert_eq. by eexists.
Qed.

Lemma SetTimeout_SetTimeout (c : resty.Client.t) (t t' : time.Duration) :
  resty.SetTimeout (resty.SetTimeout c t) t' = resty.SetTimeout c t'.
Proof. reflexivity. Qed.

(** X12: [SetRestyClient] is idempotent: a second call with the same handle
    changes neither the client nor the store.  With the handle the client
    already has it leaves the client as it is and forces the timeout.  A
    transport that was replaced keeps the timeout that was forced on it. *)
Theorem SetRestyClient_again (g g1 : GoZaya) (h h' : resty.ClientPtr)
    (σ σ1 : store) :
  SetRestyClient g h σ = Some (g1, σ1) →
  SetRestyClient g1 h σ1 = Some (g1, σ1)
  ∧ (h = RestyClient g → g1 = g)
  ∧ (h' ≠ h →
     ∀ g2 σ2, SetRestyClient g1 h' σ1 = Some (g2, σ2) →
       RestyClient g2 = h'
       ∧ resty.Client.Timeout <$> σ2 !! h = Some (30 * time.Second)
       ∧ resty.Client.Timeout <$> σ2 !! h' = Some (30 * time.Second)).
Proof.
  unfold SetRestyClient. simpl.
  destruct (σ !! h) as [c|] eqn:Hc; [|discriminate].
  simpl. intros [= <- <-]. simpl.
  rewrite lookup_insert_eq. simpl.
  rewrite SetTimeout_SetTimeout, insert_insert_eq.
  split; [reflexivity|].
  split; [intros ->; by destruct g|].
  intros Hne g2 σ2. rewrite lookup_insert_ne by done.
  destruct (σ !! h') as [c'|]; [|discriminate].
  simpl. intros [= <- <-]. unfold RestyClient. simpl.
  split; [reflexivity|].
  by rewrite lookup_insert_ne, !lookup_insert_eq.
Qed.

Lemma SetRestyClient_again_witness :
  ∃ (g1 : GoZaya) (σ1 : store),
    SetRestyClient zaya 7%positive one_client_store = Some (g1, σ1)
    ∧ SetRestyClient g1 7%positive σ1 = Some (g1, σ1).
Proof.
  eexists _, _. split; [reflexivity|].
  eapply (SetRestyClient_again zaya _ 7%positive 7%positive one_client_store).
  reflexivity.
Defined.

(** * The base path as a normal form *)

Lemma append_nil_r (s : string) : s +:+ "" = s.
Proof.
  induction s as [|x s IH]; [done|].
  change (String x (s +:+ "") = String x s). by rewrite IH.
Qed.

Lemma Repeat_snoc (s : string) (n : nat) :
  Go_strings.Repeat s (S n) = Go_strings.Repeat s n +:+ s.
Proof.
  induction n as [|n IH]; [simpl; by rewrite append_nil_r|].
  change (s +:+ Go_strings.Repeat s (S n) = (s +:+ Go_strings.Repeat s n) +:+ s).
  by rewrite IH, append_assoc.
Qed.

(** A string that does not end with the separator is left as it is. *)
Lemma TrimRight_fixed (s : string) :
  Go_strings.HasSuffix s "/" = false → Go_strings.TrimRight s "/" = s.
Proof.
  intros Hsuffix. destruct (TrimRight_separators s) as [[|n] Hn].
  - simpl in Hn. by rewrite append_nil_r in Hn.
  - rewrite Repeat_snoc, <- append_assoc in Hn.
    rewrite Hn, HasSuffix_append in Hsuffix. discriminate.
Qed.

Lemma trimRight_loop_skip (n : nat) (rs : list ascii) :
  Go_strings.trimRight_loop "/" (replicate n "/"%char ++ rs)%list
  = Go_strings.trimRight_loop "/" rs.
Proof. induction n as [|n IH]; [done|]. simpl. exact IH. Qed.

(** Separators added at the end are removed with the others. *)
Lemma TrimRight_more_separators (s : string) (n : nat) :
  Go_strings.TrimRight (s +:+ Go_strings.Repeat "/" n) "/"
  = Go_strings.TrimRight s "/".
Proof.
  unfold Go_strings.TrimRight.
  rewrite list_ascii_of_string_append, <- string_of_separators,
    list_ascii_of_string_of_list_ascii, rev_app_distr, rev_replicate.
  by rewrite trimRight_loop_skip.
Qed.

(** X13: the stored base path is a normal form of the base path.  A base
    path that does not end with the separator is stored as it is; building a
    client from a stored base path stores the same base path; base paths that
    differ in the number of separators at their end are stored as one; and a
    base path of separators only is stored as the empty string. *)
Theorem NewClient_base_path_normal_form (basePath_ : string) (n : nat)
    (σ σ' : store) :
  (Go_strings.HasSuffix basePath_ "/" = false →
     basePath (NewClient basePath_ [] σ).1 = basePath_)
  ∧ basePath (NewClient (basePath (NewClient basePath_ [] σ).1) [] σ').1
    = basePath (NewClient basePath_ [] σ).1
  ∧ basePath (NewClient (basePath_ +:+ Go_strings.Repeat "/" n) [] σ').1
    = basePath (NewClient basePath_ [] σ).1
  ∧ basePath (NewClient (Go_strings.Repeat "/" n) [] σ).1 = "".
Proof.
  rewrite !NewClient_defaults. simpl.
  split; [apply TrimRight_fixed|].
  split; [apply TrimRight_fixed, TrimRight_no_trailing_separator|].
  split; [apply TrimRight_more_separators|].
  apply (TrimRight_more_separators "" n).
Qed.

Lemma NewClient_base_path_normal_form_witness :
  basePath (NewClient "https://zaya.io" [] ∅).1 = "https://zaya.io"
  ∧ basePath (NewClient "https://zaya.io///" [] ∅).1 = basePath zaya.
Proof.
  split.
  - by apply (NewClient_base_path_normal_form "https://zaya.io" 0 ∅ ∅).
  - apply (NewClient_base_path_normal_form "https://zaya.io/" 2 ∅ ∅).
Defined.

(** * The form of CreateLink as an encoding *)

Lemma CreateLink_form_fields (link : GenerateLinkRequest) :
  CreateLink_form link !! "url" = string_field (Url link)
  ∧ CreateLink_form link !! "alias" = string_field (Alias link)
  ∧ CreateLink_form link !! "password" = string_field (Password link)
  ∧ CreateLink_form link !! "disable" = numeric_field (Disable link)
  ∧ CreateLink_form link !! "public" = numeric_field (Public link)
  ∧ CreateLink_form link !! "description" = string_field (Description link)
  ∧ CreateLink_form link !! "expiration_date" = string_field (ExpirationDate link)
  ∧ CreateLink_form link !! "expiration_time" = string_field (ExpirationTime link)
  ∧ CreateLink_form link !! "expiration_clicks" = numeric_field (ExpirationClicks link)
  ∧ CreateLink_form link !! "domain" = numeric_field (Domain link)
  ∧ CreateLink_form link !! "expiration_url" = string_field (ExpirationUrl link).
Proof. do 10 (split; [form_lookup|]). form_lookup. Qed.

Lemma string_field_inj (s t : string) : string_field s = string_field t → s = t.
Proof. unfold string_field. repeat case_decide; congruence. Qed.

Lemma Itoa_not_empty (n : Z) : n ≠ 0 → strconv.Itoa n ≠ "".
Proof.
  intros Hn Hempty. pose proof (Itoa_decimal n) as Hdec.
  rewrite Hempty in Hdec. cbv in Hdec. apply Hn. congruence.
Qed.

Lemma numeric_field_inj (n m : Z) : numeric_field n = numeric_field m → n = m.
Proof.
  unfold numeric_field. repeat case_decide; try congruence.
  intros [= Heq]. by apply Itoa_inj.
Qed.

Lemma CreateLink_form_inj (l1 l2 : GenerateLinkRequest) :
  CreateLink_form l1 = CreateLink_form l2 → l1 = l2.
Proof.
  intros Heq.
  destruct (CreateLink_form_fields l1)
    as (H1 & H2 & H3 & H4 & H5 & H6 & H7 & H8 & H9 & H10 & H11).
  destruct (CreateLink_form_fields l2)
    as (K1 & K2 & K3 & K4 & K5 & K6 & K7 & K8 & K9 & K10 & K11).
  rewrite Heq in H1, H2, H3, H4, H5, H6, H7, H8, H9, H10, H11.
  destruct l1, l2; simpl in *. f_equal;
    first [apply string_field_inj | apply numeric_field_inj]; congruence.
Qed.

(** X14: the form determines the request: two requests with the same form
    are the same request, and the form is empty exactly for the request whose
    fields all have their zero value. *)
Theorem CreateLink_form_injective (l1 l2 : GenerateLinkRequest) :
  (CreateLink_form l1 = CreateLink_form l2 ↔ l1 = l2)
  ∧ (CreateLink_form l1 = ∅ ↔ l1 = zero_link).
Proof.
  split; (split; [|by intros ->]).
  - apply CreateLink_form_inj.
  - intros Hempty. by apply CreateLink_form_inj.
Qed.

(** X15: the form holds no empty value and no key besides the eleven field
    names. *)
Theorem CreateLink_form_values (link : GenerateLinkRequest) (key value : string) :
  CreateLink_form link !! key = Some value →
  key ∈ form_fields ∧ value ≠ "".
Proof.
  intros Hlookup.
  destruct (decide (key ∈ form_fields)) as [Hkey|Hkey];
    [|by rewrite (CreateLink_form_other link key Hkey) in Hlookup].
  split; [done|].
  destruct (CreateLink_form_fields link)
    as (H1 & H2 & H3 & H4 & H5 & H6 & H7 & H8 & H9 & H10 & H11).
  assert (Hstring : ∀ s, string_field s = Some value → value ≠ "").
  { intros s. unfold string_field. case_decide; congruence. }
  assert (Hnumber : ∀ n, numeric_field n = Some value → value ≠ "").
  { intros n. unfold numeric_field. case_decide; [done|].
    intros [= <-]. by apply Itoa_not_empty. }
  unfold form_fields in Hkey.
  repeat (apply elem_of_cons in Hkey as [->|Hkey];
          [first [eapply Hstring; by rewrite <- Hlookup
                 | eapply Hnumber; by rewrite <- Hlookup]|]).
  by apply elem_of_nil in Hkey.
Qed.

Lemma CreateLink_form_values_witness :
  "domain" ∈ form_fields ∧ "42" ≠ "".
Proof.
  by apply (CreateLink_form_values all_fields_link "domain" "42").
Defined.

(** * The credentials of CreateLink *)

Section CreateLink_credentials.
Context `{Declarations}.
Variable GlobalTracer : opentracing.Tracer.

(** X16: for the request that [CreateLink] hands to a client made by
    [resty.New], a token that starts with a visible ASCII character goes out
    as [Authorization: Bearer token], in the place of whatever the outgoing
    header held under that key, and the other keys stay as they were; with a
    blank token the outgoing header is left as it was. *)
Theorem CreateLink_credentials (g : GoZaya) (ctx : context.Context)
    (token : string) (link : GenerateLinkRequest) (raw : http_Header) :
  (∀ (a : ascii) (rest : string),
     token = String a rest → (33 <= N_of_ascii a <= 126)%N →
     resty.addCredentials resty.New (CreateLink_sent GlobalTracer g ctx token link) raw
     = <["Authorization" := ["Bearer " +:+ token]]> raw)
  ∧ (resty.IsStringEmpty token = true →
     resty.addCredentials resty.New (CreateLink_sent GlobalTracer g ctx token link) raw
     = raw).
Proof.
  assert (Hscheme :
            resty.AuthScheme (CreateLink_sent GlobalTracer g ctx token link) = "").
  { unfold CreateLink_sent, CreateLink_request, GetRequestFormData.
    rewrite GetRequest_fields. reflexivity. }
  assert (Htoken : resty.Token (CreateLink_sent GlobalTracer g ctx token link) = token)
    by reflexivity.
  split.
  - intros a rest Ha Hvisible.
    apply (IsStringEmpty_Bearer_scheme token _ raw Hscheme Htoken).
    rewrite Ha. by apply IsStringEmpty_visible.
  - intros Hblank. unfold resty.addCredentials. by rewrite Htoken, Hblank.
Qed.

End CreateLink_credentials.

Lemma CreateLink_credentials_witness :
  resty.addCredentials resty.New
    (CreateLink_sent greedy_tracer zaya (traced greedy_tracer) "tok" only_url_link)
    (resty.Header
       (CreateLink_sent greedy_tracer zaya (traced greedy_tracer) "tok" only_url_link))
  !! "Authorization" = Some ["Bearer tok"].
Proof.
  destruct (CreateLink_credentials greedy_tracer zaya (traced greedy_tracer) "tok"
              only_url_link
              (resty.Header (CreateLink_sent greedy_tracer zaya (traced greedy_tracer)
                               "tok" only_url_link))) as [Hvisible _].
  rewrite (Hvisible "t"%char "ok" eq_refl); [apply lookup_insert_eq|].
  split; by vm_compute.
Defined.
